(** * devheader: per-device header generation from a JSON layout

    Shallow embedding of [tools/devheader.py].  The script loads a JSON
    document (an ordered mapping from device names to descriptors), writes
    the shared header [devinfo.h] and then one header per mappable device.

    Modelling conventions.
    - A parsed JSON value is a [json]; objects keep their pairs in document
      order, the way [collections.OrderedDict] does.  JSON numbers are
      integers ([Z]); fractional numbers are outside the model.
    - A Python [str] is a [string] of bytes: texts are ASCII, except for the
      non-breaking space of the source, kept as its two UTF-8 bytes.
    - Python exceptions are values of [exn]; a computation that may raise
      returns a [result].
    - The effects of the script (appending to an open file, creating files
      and directories, printing) are threaded through a state-and-exception
      monad [M]; the state survives a raised exception, which is how a file
      closed by a [with] block keeps what was written before the failure.
    - A file is addressed by the pair (directory, name) that the script hands
      to [os.path.join]: device names are used as file stems. *)

From Stdlib Require Import ZArith Ascii String List.
From stdpp Require Import base option list gmap strings pretty.

Local Open Scope Z_scope.
Local Open Scope string_scope.

(** ** Parsed JSON values *)

#[local] Set Warnings "-register-all".

Inductive json : Type :=
| JNull
| JBool (b : bool)
| JNum (z : Z)
| JStr (s : string)
| JArr (l : list json)
| JObj (m : list (string * json)).

(** The ordered dictionary built for a JSON object: its pairs in insertion
    order.  The parser builds dictionaries with distinct keys; a lookup takes
    the first pair with the key, and nothing below relies on distinctness. *)
Abbreviation odict := (list (string * json)).

(** ** Exceptions and results *)

Inductive exn : Type :=
| KeyError
| IndexError
| TypeError
| ValueError
| OSError.

Inductive result (A : Type) : Type :=
| Ok (a : A)
| Raise (e : exn).

Arguments Ok {A} a.
Arguments Raise {A} e.

(** ** State-and-exception monad *)

Definition M (S A : Type) : Type := S -> S * result A.

Definition ret {S A} (a : A) : M S A := fun s => (s, Ok a).

Definition bind {S A B} (c : M S A) (k : A -> M S B) : M S B :=
  fun s =>
    match c s with
    | (s', Ok a) => k a s'
    | (s', Raise e) => (s', Raise e)
    end.

(** A pure computation that may raise, run inside [M]. *)
Definition lift {S A} (r : result A) : M S A := fun s => (s, r).

Declare Scope py_scope.
Delimit Scope py_scope with py.
Notation "x <- c ;; k" := (bind c (fun x => k))
  (at level 100, c at next level, right associativity) : py_scope.
Notation "c ;; k" := (bind c (fun _ => k))
  (at level 100, right associativity) : py_scope.
Local Open Scope py_scope.

(** [for x in l: body x] *)
Fixpoint for_each {S A} (l : list A) (body : A -> M S unit) : M S unit :=
  match l with
  | [] => ret tt
  | x :: l' => body x ;; for_each l' body
  end.

(** [enumerate(l)] *)
Fixpoint enumerate_from {A} (n : nat) (l : list A) : list (nat * A) :=
  match l with
  | [] => []
  | x :: l' => (n, x) :: enumerate_from (S n) l'
  end.

Definition enumerate {A} (l : list A) : list (nat * A) := enumerate_from 0 l.

(** ** Characters and text constants *)

Definition LF : string := String "010"%char "".
Definition DQ : string := String "034"%char "".
(** U+00A0 as written to a UTF-8 file. *)
Definition NBSP : string := String "194"%char (String "160"%char "").

(** [str.upper()] on ASCII text. *)
Definition upper_ascii (c : ascii) : ascii :=
  let n := nat_of_ascii c in
  if ((97 <=? n) && (n <=? 122))%nat then ascii_of_nat (n - 32) else c.

Fixpoint upper (s : string) : string :=
  match s with
  | EmptyString => EmptyString
  | String c s' => String (upper_ascii c) (upper s')
  end.

(** [needle in hay] on strings. *)
Fixpoint is_substring (needle hay : string) : bool :=
  String.prefix needle hay ||
  match hay with
  | EmptyString => false
  | String _ hay' => is_substring needle hay'
  end.

(** ** The dynamic operations of Python the script relies on *)

(** [d[k]] on an ordered dictionary. *)
Fixpoint dict_get (k : string) (m : odict) : option json :=
  match m with
  | [] => None
  | (k', v) :: m' => if String.eqb k k' then Some v else dict_get k m'
  end.

Definition dict_getitem (m : odict) (k : string) : result json :=
  match dict_get k m with
  | Some v => Ok v
  | None => Raise KeyError
  end.

(** [v[k]] for a string key [k]. *)
Definition getitem_key (v : json) (k : string) : result json :=
  match v with
  | JObj m => dict_getitem m k
  | _ => Raise TypeError
  end.

(** [v[i]] for a non-negative integer index [i]; the keys of a parsed JSON
    object are strings, so an integer is never one of them. *)
Definition getitem_idx (v : json) (i : nat) : result json :=
  match v with
  | JArr l =>
      match nth_error l i with
      | Some x => Ok x
      | None => Raise IndexError
      end
  | JStr s =>
      match String.get i s with
      | Some c => Ok (JStr (String c ""))
      | None => Raise IndexError
      end
  | JObj _ => Raise KeyError
  | _ => Raise TypeError
  end.

(** [l[i]] for an integer [i], counted from the end when negative. *)
Definition list_index (l : list json) (i : Z) : result json :=
  let n := Z.of_nat (length l) in
  let k := if Z.ltb i 0 then Z.add i n else i in
  if Z.leb 0 k && Z.ltb k n then
    match nth_error l (Z.to_nat k) with
    | Some x => Ok x
    | None => Raise IndexError
    end
  else Raise IndexError.

(** [l[v]] for a list [l]: the index is an integer, a boolean counting as 0
    or 1. *)
Definition list_getitem (l : list json) (v : json) : result json :=
  match v with
  | JNum z => list_index l z
  | JBool b => list_index l (if b then 1%Z else 0%Z)
  | _ => Raise TypeError
  end.

(** The items a [for] loop visits. *)
Definition py_iter (v : json) : result (list json) :=
  match v with
  | JArr l => Ok l
  | JStr s => Ok (map (fun c => JStr (String c "")) (list_ascii_of_string s))
  | JObj m => Ok (map (fun kv => JStr (fst kv)) m)
  | _ => Raise TypeError
  end.

(** [v[n:]]; slicing a dictionary raises. *)
Definition py_slice_from (v : json) (n : nat) : result json :=
  match v with
  | JArr l => Ok (JArr (skipn n l))
  | JStr s => Ok (JStr (String.substring n (String.length s - n) s))
  | _ => Raise TypeError
  end.

(** [len(v)] *)
Definition py_len (v : json) : result nat :=
  match v with
  | JArr l => Ok (length l)
  | JStr s => Ok (String.length s)
  | JObj m => Ok (length m)
  | _ => Raise TypeError
  end.

(** [k in v] for a string [k]. *)
Definition py_in (k : string) (v : json) : result bool :=
  match v with
  | JObj m => Ok (match dict_get k m with Some _ => true | None => false end)
  | JArr l =>
      Ok (existsb (fun x => match x with JStr s => String.eqb s k | _ => false end) l)
  | JStr s => Ok (is_substring k s)
  | _ => Raise TypeError
  end.

(** [v == s] for a string [s]. *)
Definition py_eq_str (v : json) (s : string) : bool :=
  match v with
  | JStr s' => String.eqb s' s
  | _ => false
  end.

(** [v != 0]; in Python [False == 0]. *)
Definition py_ne_zero (v : json) : bool :=
  match v with
  | JNum z => negb (Z.eqb z 0)
  | JBool b => b
  | _ => true
  end.

(** ["%d" % v] *)
Definition fmt_d (v : json) : result string :=
  match v with
  | JNum z => Ok (pretty z)
  | JBool b => Ok (if b then "1" else "0")
  | _ => Raise TypeError
  end.

(** ** Text constants of the script *)

Definition c_header : string :=
"/*
 *
 * Copyright 2018 The wookey project team <wookey@ssi.gouv.fr>
 *   - Ryad     Benadjila
 *   - Arnauld  Michelizza
 *   - Mathieu  Renard
 *   - Philippe Thierry
 *   - Philippe Trebuchet
 *
 * This package is free software; you can redistribute it and/or modify
 * it under the terms of the GNU Lesser General Public License as published
 * the Free Software Foundation; either version 2.1 of the License, or (at
 * ur option) any later version.
 *
 * This package is distributed in the hope that it will be useful, but WITHOUT ANY
 * WARRANTY; without even the implied warranty of MERCHANTABILITY or FITNESS FOR A
 * PARTICULAR PURPOSE. See the GNU Lesser General Public License for more details.
 *
 * You should have received a copy of the GNU Lesser General Public License along
 * with this package; if not, write to the Free Software Foundation, Inc., 51
 * Franklin St, Fifth Floor, Boston, MA 02110-1301 USA
 *
 * This file has been generated by devheader.py from a Tataouine SDK Json layout file
 *
 */
".

Definition c_definition : string :=
"

#include " +:+ DQ +:+ "api/types.h" +:+ DQ +:+ "
#include " +:+ DQ +:+ "api/syscall.h" +:+ DQ +:+ "


/*
** This file defines the valid adress ranges where devices are mapped.
** This allows the kernel to check that device registration requests correct
** mapping.
**
** Of course these informations are SoC specific
** This file may be completed by a bord specific file for board devices
*/

/*!
**" +:+ NBSP +:+ "\brief Structure defining the STM32 device map
**
** This table is based on doc STMicro RM0090 Reference manual memory map
** Only devices that may be registered by userspace are mapped here
**
** See #soc_devices_list
*/

struct user_driver_device_gpio_infos {
    uint8_t    port;
    uint8_t    pin;
};

struct user_driver_device_infos {
    physaddr_t addr;       /**< Device MMIO base address */
    uint32_t   size;       /**< Device MMIO mapping size */
    uint8_t    irq[4];     /**< IRQ line, when exist, or 0, max 4 irq lines per device */
    /** GPIO informations of the device (pin, port) */
    struct user_driver_device_gpio_infos gpios[4];
};


".

Definition c_footer : string :=
"

#endif
".

(** ** The world the script acts on *)

(** [files] maps (directory, name) to the content of that file, [dirs] is the
    set of existing directories, [stdout] what has been printed. *)
Record world : Type := mkWorld {
  dirs : gset string;
  files : gmap (string * string) string;
  stdout : string
}.

(** [os.path.join(dir, name)] for a file name [name]. *)
Definition os_path_join (dir name : string) : string * string := (dir, name).

(** [os.path.exists(p)], asked of a directory path. *)
Definition os_path_exists (p : string) (w : world) : bool :=
  bool_decide (p ∈ dirs w).

(** [os.makedirs(p)]; creation is taken to succeed. *)
Definition os_makedirs (p : string) (w : world) : world :=
  mkWorld ({[p]} ∪ dirs w) (files w) (stdout w).

(** Names for which this model of the file system is the file system.  A
    plain stem is made of lowercase letters, digits, [_] and [-], and is short
    enough for [<stem>.h] to be a file name: joined to a directory it names
    one file of that directory, distinct stems name distinct files, and
    [str.upper()] changes its letters only. *)
Definition stem_char (c : ascii) : bool :=
  let n := nat_of_ascii c in
  ((97 <=? n) && (n <=? 122) || (48 <=? n) && (n <=? 57)
   || (n =? 95) || (n =? 45))%nat.

Definition plain_stem (s : string) : bool :=
  forallb stem_char (list_ascii_of_string s) && (String.length s <=? 253)%nat.

(** Every device of the document has a plain stem for a name. *)
Definition plain_names (data : odict) : bool := forallb plain_stem (map fst data).

(** A directory named by one plain path component: [os.makedirs] has that
    one directory to create. *)
Definition plain_dir (s : string) : bool :=
  plain_stem s && negb (String.eqb s "").

(** [print(a, b, ...)]: the arguments separated by a space, then a newline. *)
Definition print (args : list string) (w : world) : world :=
  mkWorld (dirs w) (files w) (stdout w +:+ String.concat " " args +:+ LF).

(** [f.write(s)] on the file being written. *)
Definition write (s : string) : M string unit :=
  fun buf => (buf +:+ s, Ok tt).

(** The file at [p] holds [content], whatever it held before. *)
Definition set_file (p : string * string) (content : string) (w : world) : world :=
  mkWorld (dirs w) (<[p := content]> (files w)) (stdout w).

(** [with open(p, "w") as f: body]: the file is created or truncated, the body
    appends to it, and it is closed (so holds what was written) whether the
    body finishes or raises. *)
Definition with_open_w {A} (p : string * string) (body : M string A) : M world A :=
  fun w =>
    let (buf, r) := body "" in
    (set_file p buf w, r).

(** The status the interpreter exits with: 1 on an uncaught exception. *)
Definition exit_status {A} (r : result A) : Z :=
  match r with
  | Ok _ => 0
  | Raise _ => 1
  end.

(** ** Text containment and documents used in examples *)

(** [needle] occurs in [hay]. *)
Definition contains (needle hay : string) : Prop :=
  exists pre post, hay = pre +:+ needle +:+ post.

Definition empty_world : world := mkWorld ∅ ∅ "".

(** The two devices of the scenario of the specification. *)
Definition dma1_fields : odict :=
  [ ("address", JStr "0x40020000");
    ("size", JStr "0");
    ("irqs", JArr [JNum 0; JNum 0; JNum 0; JNum 0]) ].

Definition usart1_fields : odict :=
  [ ("address", JStr "0x40011000");
    ("size", JStr "0x400");
    ("irqs", JArr [JStr "USART1_IRQ"; JNum 0; JNum 0; JNum 0]);
    ("irqs_literal", JArr [JNum 37; JNum 0; JNum 0; JNum 0]);
    ("gpios", JArr [ JObj [("port", JNum 1); ("pin", JNum 9)];
                     JObj [("port", JNum 1); ("pin", JNum 10)] ]) ].

Definition scenario_doc : odict :=
  [ ("dma1", JObj dma1_fields); ("usart1", JObj usart1_fields) ].

(** An unmappable device named like the shared header. *)
Definition devinfo_fields : odict :=
  [ ("address", JStr "0x40026000");
    ("size", JStr "0");
    ("irqs", JArr [JNum 0; JNum 0; JNum 0; JNum 0]) ].


(** An unmappable device described by its size alone. *)
Definition size_only_doc : odict :=
  [ ("dma1", JObj [ ("size", JStr "0") ]) ].

(** A mappable device without [irqs], between two well-formed devices. *)
Definition no_irqs_fields : odict :=
  [ ("address", JStr "0x40004400"); ("size", JStr "0x400") ].

Definition no_irqs_doc : odict :=
  [ ("dma1", JObj dma1_fields); ("usart2", JObj no_irqs_fields);
    ("usart1", JObj usart1_fields) ].

(** A mappable device whose IRQ slots are all 0, without [irqs_literal]. *)
Definition quiet_fields : odict :=
  [ ("address", JStr "0x40023000");
    ("size", JStr "0x400");
    ("irqs", JArr [JNum 0; JNum 0; JNum 0; JNum 0]) ].


(** A mappable device with a named IRQ slot and no [irqs_literal]. *)
Definition named_irq_fields : odict :=
  [ ("address", JStr "0x40004800");
    ("size", JStr "0x400");
    ("irqs", JArr [JNum 0; JStr "USART3_IRQ"; JNum 0; JNum 0]) ].

(** A mappable device whose [irqs] is a number. *)
Definition scalar_irqs_fields : odict :=
  [ ("address", JStr "0x40004800"); ("size", JStr "0x400"); ("irqs", JNum 0) ].

(** A mappable device with five GPIO pairs. *)
Definition five_gpio_fields : odict :=
  [ ("address", JStr "0x40012C00");
    ("size", JStr "0x400");
    ("irqs", JArr [JNum 0; JNum 0; JNum 0; JNum 0]);
    ("gpios", JArr [ JObj [("port", JNum 3); ("pin", JNum 2)];
                     JObj [("port", JNum 2); ("pin", JNum 8)];
                     JObj [("port", JNum 2); ("pin", JNum 9)];
                     JObj [("port", JNum 2); ("pin", JNum 10)];
                     JObj [("port", JNum 2); ("pin", JNum 11)] ]) ].

(** A mappable device whose second GPIO entry has no pin. *)
Definition bad_gpio_fields : odict :=
  [ ("address", JStr "0x40011000");
    ("size", JStr "0x400");
    ("irqs", JArr [JNum 0; JNum 0; JNum 0; JNum 0]);
    ("gpios", JArr [ JObj [("port", JNum 1); ("pin", JNum 9)];
                     JObj [("port", JNum 1)] ]) ].


(** A device whose size is the number 0, not the string. *)
Definition numeric_zero_fields : odict :=
  [ ("address", JStr "0x40026000");
    ("size", JNum 0);
    ("irqs", JArr [JNum 0; JNum 0; JNum 0; JNum 0]) ].

(** A mappable device named like the shared header. *)
Definition devinfo_mapped_doc : odict := [ ("devinfo", JObj quiet_fields) ].

(** ** Documents the script handles without failure *)

(** The slot is 0, or [lits] has a number for it. *)
Definition literal_ok (lits : json) (slot : nat * json) : bool :=
  negb (py_ne_zero (snd slot)) ||
  match getitem_idx lits (fst slot) with
  | Ok v => match fmt_d v with Ok _ => true | Raise _ => false end
  | Raise _ => false
  end.

(** The GPIO entry has a port and a pin. *)
Definition gpio_ok (gpio : json) : bool :=
  match getitem_key gpio "port", getitem_key gpio "pin" with
  | Ok _, Ok _ => true
  | _, _ => false
  end.

(** A descriptor with an address, a non-empty list of IRQ slots each of which
    is 0 or has its number in [irqs_literal], and no [gpios] or a list of
    entries with a port and a pin. *)
Definition well_formed (m : odict) : bool :=
  match dict_get "address" m, dict_get "irqs" m with
  | Some _, Some (JArr (irq0 :: rest)) =>
      (forallb (fun irq => negb (py_ne_zero irq)) (irq0 :: rest) ||
       match dict_get "irqs_literal" m with
       | Some lits => forallb (literal_ok lits) (enumerate (irq0 :: rest))
       | None => false
       end)
      && match dict_get "gpios" m with
         | None => true
         | Some (JArr pairs) => forallb gpio_ok pairs
         | Some _ => false
         end
  | _, _ => false
  end.

(** Every device is an object with a size, and is unmappable or well formed. *)
Definition document_ok (data : odict) : bool :=
  forallb (fun kv =>
             match snd kv with
             | JObj m =>
                 match dict_get "size" m with
                 | Some size => py_eq_str size "0" || well_formed m
                 | None => false
                 end
             | _ => false
             end) data.

(** A rendering of containers for the examples, none of which prints one. *)
Definition no_container_str (v : json) : string := "".

(** An environment in which [layout.json] holds the document [doc]. *)
Definition load_doc (doc : odict) (filename : string) : result json :=
  if String.eqb filename "layout.json" then Ok (JObj doc) else Raise OSError.

Section Python.

(** [str(v)] of a list or of an ordered dictionary: the text depends on the
    interpreter version and is left abstract. *)
Variable container_str : json -> string.

(** [json.load] applied to the file at a path, with
    [object_pairs_hook=collections.OrderedDict]: the parser belongs to the
    Python library, so the document read (or the exception raised) is given
    by the environment. *)
Variable json_load : string -> result json.

(** ["%s" % v] *)
Definition py_str (v : json) : string :=
  match v with
  | JNull => "None"
  | JBool b => if b then "True" else "False"
  | JNum z => pretty z
  | JStr s => s
  | JArr _ | JObj _ => container_str v
  end.

Section Globals.

(** The module-level names [generate_c] reads. *)
Variable outdir : string.
Variable data : odict.

Definition gpio_pad : string := "      { 0, 0 }," +:+ LF.

(** The [with] block of one device, cut at the comments of the source. *)

(** header (license), preprocessing and inclusion *)
Definition write_prologue (devheadername : string) : M string unit :=
  write c_header ;;
  write ("#ifndef " +:+ devheadername +:+ LF) ;;
  write ("# define " +:+ devheadername +:+ LF) ;;
  write (LF +:+ "#include " +:+ DQ +:+ "generated/devinfo.h" +:+ DQ +:+ LF +:+ LF).

(** generating defines for IRQ values *)
Definition write_irq_define (dev : json) (ii : nat * json) : M string unit :=
  let index := fst ii in
  let irq := snd ii in
  if py_ne_zero irq then
    irqvals <- lift (getitem_key dev "irqs_literal") ;;
    v <- lift (getitem_idx irqvals index) ;;
    d <- lift (fmt_d v) ;;
    write ("#define " +:+ py_str irq +:+ " " +:+ d +:+ LF)
  else ret tt.

Definition write_irq_defines (dev : json) : M string unit :=
  irqs <- lift (getitem_key dev "irqs") ;;
  items <- lift (py_iter irqs) ;;
  for_each (enumerate items) (write_irq_define dev).

(** global variable declaration, device address, device size *)
Definition write_declaration (device : string) (dev : json) : M string unit :=
  write (LF +:+ "static const struct user_driver_device_infos " +:+ device
            +:+ "_dev_infos =" +:+ NBSP +:+ "{" +:+ LF) ;;
  address <- lift (getitem_key dev "address") ;;
  write ("    .address = " +:+ py_str address +:+ "," +:+ LF) ;;
  size <- lift (getitem_key dev "size") ;;
  write ("    .size    = " +:+ py_str size +:+ "," +:+ LF).

(** device irqs *)
Definition write_irqs (dev : json) : M string unit :=
  irqs <- lift (getitem_key dev "irqs") ;;
  write "    .irqs[] = { " ;;
  irq0 <- lift (getitem_idx irqs 0) ;;
  write ("    " +:+ py_str irq0) ;;
  tail <- lift (py_slice_from irqs 1) ;;
  items <- lift (py_iter tail) ;;
  for_each items (fun irq => write (", " +:+ py_str irq)) ;;
  write (" }," +:+ LF).

(** device gpios *)
Definition write_gpio (gpio : json) : M string unit :=
  port <- lift (getitem_key gpio "port") ;;
  pin <- lift (getitem_key gpio "pin") ;;
  write ("      { " +:+ py_str port +:+ ", " +:+ py_str pin +:+ " }," +:+ LF).

Definition write_gpios (dev : json) : M string unit :=
  write ("    .gpios[] = {" +:+ LF) ;;
  present <- lift (py_in "gpios" dev) ;;
  (if present : bool then
     gpios <- lift (getitem_key dev "gpios") ;;
     all <- lift (py_slice_from gpios 0) ;;
     items <- lift (py_iter all) ;;
     for_each items write_gpio ;;
     n <- lift (py_len gpios) ;;
     if (n <? 4)%nat then for_each (seq n (4 - n)) (fun _ => write gpio_pad)
     else ret tt
   else
     for_each [1; 2; 3; 4]%nat (fun _ => write gpio_pad)) ;;
  write ("    }" +:+ LF).

Definition device_body (device devheadername : string) (dev : json) : M string unit :=
  write_prologue devheadername ;;
  write_irq_defines dev ;;
  write_declaration device dev ;;
  write_irqs dev ;;
  write_gpios dev ;;
  write ("};" +:+ LF) ;;
  (* closing preprocessing *)
  write c_footer.

(** One turn of the loop [for device in data]. *)
Definition emit_device (device : string) : M world unit :=
  dev <- lift (dict_getitem data device) ;;
  size <- lift (getitem_key dev "size") ;;
  if py_eq_str size "0" then
    ret tt
  else
    let devfilename := device +:+ ".h" in
    let devheadername := upper device +:+ "_H_" in
    with_open_w (os_path_join outdir devfilename)
                (device_body device devheadername dev).

(** The body of the [with] block of the shared header. *)
Definition devinfo_body : M string unit :=
  write c_header ;;
  write ("#ifndef DEVINFO_H_" +:+ LF) ;;
  write ("# define DEVINFO_H_" +:+ LF) ;;
  write c_definition ;;
  write ("#endif/*!DEVINFO_H_*/" +:+ LF).

Definition generate_c : M world unit :=
  with_open_w (os_path_join outdir "devinfo.h") devinfo_body ;;
  for_each (map fst data) emit_device.

End Globals.

(** [generate_c] on whatever document was loaded.  On a JSON object it is
    [generate_c] above.  On anything else the same statements run on other
    types: the shared header is written, then the loop visits the elements of
    a list or the characters of a string (and raises on a number, a boolean
    or null); [data[device]] indexes the list by the element, or raises on a
    string; and for a device that is not skipped [device + ".h"] raises, a
    list index being a number. *)
Definition generate_c_document (outdir : string) (data : json) : M world unit :=
  match data with
  | JObj m => generate_c outdir m
  | _ =>
      with_open_w (os_path_join outdir "devinfo.h") devinfo_body ;;
      devices <- lift (py_iter data) ;;
      for_each devices (fun device =>
        dev <- lift (match data with
                     | JArr l => list_getitem l device
                     | _ => Raise TypeError
                     end) ;;
        size <- lift (getitem_key dev "size") ;;
        if py_eq_str size "0" then ret tt else lift (Raise TypeError))
  end.

(** The script as a whole: [argv0] is [sys.argv[0]] and [args] the arguments
    after it; the result is the world left behind and the exit status. *)
Definition main (argv0 : string) (args : list string) (w : world) : world * Z :=
  let argv := argv0 :: args in
  if negb (Nat.eqb (length argv) 3) then
    (print ["usage: "; argv0; "<outdir> <filename.json>" +:+ LF] w, 1)
  else
    let outdir := nth 1 argv "" in
    let filename := nth 2 argv "" in
    let w1 := if os_path_exists outdir w then w else os_makedirs outdir w in
    match json_load filename with
    | Raise e => (w1, 1)
    | Ok data =>
        let (w2, r) := generate_c_document outdir data w1 in
        (w2, exit_status r)
    end.

(** ** The texts of a generated header, piece by piece

    These follow the output format of the specification; the theorems below
    relate them to what the emitter writes. *)

(** Texts one after another. *)
Definition flat (l : list string) : string := fold_right String.append "" l.

Definition prologue_text (guard : string) : string :=
  c_header +:+ "#ifndef " +:+ guard +:+ LF +:+ "# define " +:+ guard +:+ LF
  +:+ LF +:+ "#include " +:+ DQ +:+ "generated/devinfo.h" +:+ DQ +:+ LF +:+ LF.

(** [#define <name> <value>] *)
Definition macro_text (name value : string) : string :=
  "#define " +:+ name +:+ " " +:+ value +:+ LF.

(** The declaration of the descriptor record of a device. *)
Definition descriptor_declaration (device : string) : string :=
  "static const struct user_driver_device_infos " +:+ device +:+ "_dev_infos".

(** What follows the declaration: the address and the size. *)
Definition address_size_text (address size : json) : string :=
  " =" +:+ NBSP +:+ "{" +:+ LF
  +:+ "    .address = " +:+ py_str address +:+ "," +:+ LF
  +:+ "    .size    = " +:+ py_str size +:+ "," +:+ LF.

(** The start of the descriptor record: its name, address and size. *)
Definition declaration_text (device : string) (address size : json) : string :=
  LF +:+ descriptor_declaration device +:+ address_size_text address size.

(** The braced list of IRQ slots, its elements separated by a comma. *)
Definition irqs_text (elements : list string) : string :=
  "    .irqs[] = { " +:+ "    " +:+ String.concat ", " elements +:+ " }," +:+ LF.

(** One [{ port, pin }] pair of the GPIO list. *)
Definition gpio_text (port pin : string) : string :=
  "      { " +:+ port +:+ ", " +:+ pin +:+ " }," +:+ LF.

(** The GPIO list, one pair a line. *)
Definition gpios_text (pairs : list string) : string :=
  "    .gpios[] = {" +:+ LF +:+ flat pairs +:+ "    }" +:+ LF.

(** What closes a device header after the GPIO list. *)
Definition closing_text : string := "};" +:+ LF +:+ c_footer.


(** The port and the pin of a GPIO entry. *)
Definition gpio_fields (gpio : json) (pp : json * json) : Prop :=
  getitem_key gpio "port" = Ok (fst pp) /\ getitem_key gpio "pin" = Ok (snd pp).

Definition gpio_line (pp : json * json) : string :=
  gpio_text (py_str (fst pp)) (py_str (snd pp)).

(** The device is written out: the document has it, with a size other than
    the string ["0"]. *)
Definition is_emitted (data : odict) (device : string) : bool :=
  match dict_get device data with
  | Some dev =>
      match getitem_key dev "size" with
      | Ok size => negb (py_eq_str size "0")
      | Raise _ => false
      end
  | None => false
  end.

(** The content of the shared header. *)
Definition devinfo_text : string :=
  c_header +:+ "#ifndef DEVINFO_H_" +:+ LF +:+ "# define DEVINFO_H_" +:+ LF
  +:+ c_definition +:+ "#endif/*!DEVINFO_H_*/" +:+ LF.

(** The header expected for [usart1] in the scenario. *)
Definition usart1_header : string :=
  prologue_text "USART1_H_"
  +:+ macro_text "USART1_IRQ" "37"
  +:+ declaration_text "usart1" (JStr "0x40011000") (JStr "0x400")
  +:+ irqs_text ["USART1_IRQ"; "0"; "0"; "0"]
  +:+ gpios_text [gpio_text "1" "9"; gpio_text "1" "10"; gpio_text "0" "0"; gpio_text "0" "0"]
  +:+ closing_text.

(** ** Files written by a run *)

(** The file of a device and its include guard. *)
Definition device_file (outdir device : string) : string * string :=
  os_path_join outdir (device +:+ ".h").

Definition device_guard (device : string) : string := upper device +:+ "_H_".

(** A log of file writes, oldest first, and the world after them. *)
Definition replay (log : list ((string * string) * string)) (w : world) : world :=
  fold_left (fun w pc => set_file (fst pc) (snd pc) w) log w.

(** The content the log leaves in the file [p], if it writes it. *)
Fixpoint last_written (log : list ((string * string) * string)) (p : string * string)
  : option string :=
  match log with
  | [] => None
  | (q, c) :: log' =>
      match last_written log' p with
      | Some c' => Some c'
      | None => if decide (q = p) then Some c else None
      end
  end.

(** A computation on the open file that only appends to it: run on a file
    holding [buf], it leaves [buf] followed by what it writes on an empty
    file, with the same outcome. *)
Definition appends {A} (c : M string A) : Prop :=
  forall buf, c buf = (buf +:+ fst (c ""), snd (c "")).

(** A computation whose only effect is a fixed sequence of file writes. *)
Definition writes_only {A} (c : M world A) : Prop :=
  exists log r, forall w, c w = (replay log w, r).

(** ** Strings *)

Lemma app_nil_l_s (a : string) : "" +:+ a = a.
Proof. reflexivity. Qed.

Lemma app_cons_s (x : ascii) (a b : string) : String x a +:+ b = String x (a +:+ b).
Proof. reflexivity. Qed.

Lemma app_assoc_s (a b c : string) : (a +:+ b) +:+ c = a +:+ b +:+ c.
Proof.
  induction a as [|x a IH]; [reflexivity|].
  rewrite !app_cons_s. now f_equal.
Qed.

Lemma app_nil_r_s (a : string) : a +:+ "" = a.
Proof.
  induction a as [|x a IH]; [reflexivity|].
  rewrite app_cons_s. now f_equal.
Qed.

Lemma app_length_s (a b : string) :
  String.length (a +:+ b) = (String.length a + String.length b)%nat.
Proof.
  induction a as [|x a IH]; [reflexivity|].
  rewrite app_cons_s. simpl. now f_equal.
Qed.

Lemma app_inj_r_s (t a b : string) : a +:+ t = b +:+ t -> a = b.
Proof.
  revert b; induction a as [|x a IH]; intros [|y b] H.
  - reflexivity.
  - apply (f_equal String.length) in H.
    rewrite app_nil_l_s, app_cons_s in H; simpl in H. rewrite app_length_s in H; lia.
  - apply (f_equal String.length) in H.
    rewrite app_nil_l_s, app_cons_s in H; simpl in H. rewrite app_length_s in H; lia.
  - rewrite !app_cons_s in H. injection H as -> H. f_equal. now apply IH.
Qed.

Lemma contains_intro (pre needle post : string) :
  contains needle (pre +:+ needle +:+ post).
Proof. now exists pre, post. Qed.

Lemma contains_app_r (needle a b : string) : contains needle b -> contains needle (a +:+ b).
Proof.
  intros (pre & post & ->). exists (a +:+ pre), post. now rewrite app_assoc_s.
Qed.

Lemma contains_app_l (needle a b : string) : contains needle a -> contains needle (a +:+ b).
Proof.
  intros (pre & post & ->). exists pre, (post +:+ b). now rewrite !app_assoc_s.
Qed.

Lemma py_eq_str_true (v : json) (s : string) : py_eq_str v s = true <-> v = JStr s.
Proof.
  destruct v; simpl; try (split; [discriminate | discriminate]).
  rewrite String.eqb_eq. split; [now intros -> | now intros [= ->]].
Qed.

Lemma py_eq_str_false (v : json) (s : string) : py_eq_str v s = false <-> v <> JStr s.
Proof.
  rewrite <- py_eq_str_true. destruct (py_eq_str v s); split; congruence.
Qed.

(** ** Computations that only append to the open file *)

Lemma appends_run {A} (c : M string A) (o : string) (r : result A) (buf : string) :
  appends c -> c "" = (o, r) -> c buf = (buf +:+ o, r).
Proof. intros H E. rewrite H, E. reflexivity. Qed.

Lemma appends_write (s : string) : appends (write s).
Proof. intros buf. reflexivity. Qed.

Lemma appends_ret {A} (a : A) : appends (ret a).
Proof. intros buf. unfold ret; simpl. now rewrite app_nil_r_s. Qed.

Lemma appends_lift {A} (r : result A) : appends (lift r).
Proof. intros buf. unfold lift; simpl. now rewrite app_nil_r_s. Qed.

Lemma appends_bind {A B} (c : M string A) (k : A -> M string B) :
  appends c -> (forall a, appends (k a)) -> appends (bind c k).
Proof.
  intros Hc Hk buf. unfold bind. rewrite (Hc buf).
  destruct (c "") as [o [a|e]]; simpl.
  - rewrite (Hk a (buf +:+ o)), (Hk a o). simpl. now rewrite app_assoc_s.
  - reflexivity.
Qed.

Lemma appends_for_each {A} (l : list A) (body : A -> M string unit) :
  (forall x, appends (body x)) -> appends (for_each l body).
Proof.
  intros Hb. induction l as [|x l IH]; simpl.
  - apply appends_ret.
  - apply appends_bind; [apply Hb | intros _; apply IH].
Qed.

Lemma appends_if {A} (b : bool) (c1 c2 : M string A) :
  appends c1 -> appends c2 -> appends (if b then c1 else c2).
Proof. now destruct b. Qed.

Create HintDb appends.
#[local] Hint Resolve appends_write appends_ret appends_lift appends_if : appends.
#[local] Hint Extern 2 (appends (bind _ _)) => apply appends_bind; [|intros] : appends.
#[local] Hint Extern 2 (appends (for_each _ _)) => apply appends_for_each; intros : appends.

(** Inversion of a successful sequence of appending computations. *)
Lemma bind_ok_inv {A B} (c : M string A) (k : A -> M string B) (o : string) (b : B) :
  appends c -> (forall a, appends (k a)) ->
  bind c k "" = (o, Ok b) ->
  exists a o1 o2, c "" = (o1, Ok a) /\ k a "" = (o2, Ok b) /\ o = o1 +:+ o2.
Proof.
  intros Hc Hk H. unfold bind in H.
  destruct (c "") as [o1 [a|e]] eqn:E; [|discriminate].
  rewrite (Hk a o1) in H. injection H as <- H.
  exists a, o1, (fst (k a "")). split; [reflexivity|]. split; [|reflexivity].
  destruct (k a "") as [o2 r]; simpl in *. now subst.
Qed.

Lemma write_run (s buf : string) : write s buf = (buf +:+ s, Ok tt).
Proof. reflexivity. Qed.

Lemma bind_write (s : string) {B} (k : unit -> M string B) (buf : string) :
  bind (write s) k buf = k tt (buf +:+ s).
Proof. reflexivity. Qed.

Lemma bind_lift_ok {S A B} (a : A) (k : A -> M S B) (s : S) :
  bind (lift (Ok a)) k s = k a s.
Proof. reflexivity. Qed.

Lemma bind_lift_raise {S A B} (e : exn) (k : A -> M S B) (s : S) :
  bind (lift (Raise e)) k s = (s, Raise e).
Proof. reflexivity. Qed.

Lemma bind_assoc {S A B C} (c : M S A) (k : A -> M S B) (k' : B -> M S C) (s : S) :
  bind (bind c k) k' s = bind c (fun a => bind (k a) k') s.
Proof. unfold bind. now destruct (c s) as [s1 [a|e]]. Qed.

(** Running a sequence whose first part succeeds. *)
Lemma bind_run {A B} (c : M string A) (k : A -> M string B)
      (a : A) (o1 o2 buf : string) (r : result B) :
  (forall x, appends (k x)) ->
  c buf = (buf +:+ o1, Ok a) -> k a "" = (o2, r) ->
  bind c k buf = (buf +:+ o1 +:+ o2, r).
Proof.
  intros Hk Hc Hr. unfold bind. rewrite Hc.
  rewrite (appends_run (k a) o2 r _ (Hk a) Hr). now rewrite app_assoc_s.
Qed.



Lemma for_each_write {A} (f : A -> string) (l : list A) (buf : string) :
  for_each l (fun x => write (f x)) buf = (buf +:+ flat (map f l), Ok tt).
Proof.
  revert buf; induction l as [|x l IH]; intros buf; simpl.
  - unfold ret. now rewrite app_nil_r_s.
  - rewrite bind_write, IH. now rewrite app_assoc_s.
Qed.

Lemma concat_comma (x : string) (l : list string) :
  String.concat ", " (x :: l) = x +:+ flat (map (fun y => ", " +:+ y) l).
Proof.
  revert x; induction l as [|y l IH]; intros x.
  - simpl. now rewrite app_nil_r_s.
  - change (String.concat ", " (x :: y :: l))
      with (x +:+ ", " +:+ String.concat ", " (y :: l)).
    rewrite IH. simpl. now rewrite app_assoc_s.
Qed.



(** ** The blocks of a device header *)

Lemma appends_write_irq_define (dev : json) (ii : nat * json) :
  appends (write_irq_define dev ii).
Proof. unfold write_irq_define. auto 10 with appends. Qed.

Lemma appends_write_gpio (gpio : json) : appends (write_gpio gpio).
Proof. unfold write_gpio. auto 10 with appends. Qed.

#[local] Hint Resolve appends_write_irq_define appends_write_gpio : appends.

Lemma appends_write_prologue (g : string) : appends (write_prologue g).
Proof. unfold write_prologue. auto 10 with appends. Qed.

Lemma appends_write_irq_defines (dev : json) : appends (write_irq_defines dev).
Proof. unfold write_irq_defines. auto 10 with appends. Qed.

Lemma appends_write_declaration (device : string) (dev : json) :
  appends (write_declaration device dev).
Proof. unfold write_declaration. auto 10 with appends. Qed.

Lemma appends_write_irqs (dev : json) : appends (write_irqs dev).
Proof. unfold write_irqs. auto 20 with appends. Qed.

Lemma appends_write_gpios (dev : json) : appends (write_gpios dev).
Proof. unfold write_gpios. auto 20 with appends. Qed.

#[local] Hint Resolve appends_write_prologue appends_write_irq_defines
  appends_write_declaration appends_write_irqs appends_write_gpios : appends.

Lemma write_prologue_run (g : string) :
  write_prologue g "" = (prologue_text g, Ok tt).
Proof.
  unfold write_prologue, prologue_text.
  rewrite !bind_write, write_run, app_nil_l_s.
  now rewrite !app_assoc_s.
Qed.

(** A successful device header is its six blocks one after another. *)
Lemma device_body_ok_inv (device g : string) (dev : json) (c : string) :
  device_body device g dev "" = (c, Ok tt) ->
  exists o2 o3 o4 o5,
    write_irq_defines dev "" = (o2, Ok tt) /\
    write_declaration device dev "" = (o3, Ok tt) /\
    write_irqs dev "" = (o4, Ok tt) /\
    write_gpios dev "" = (o5, Ok tt) /\
    c = prologue_text g +:+ o2 +:+ o3 +:+ o4 +:+ o5 +:+ closing_text.
Proof.
  unfold device_body. intros H.
  apply bind_ok_inv in H as ([] & o1 & r1 & H1 & H & ->); [|auto 10 with appends..].
  apply bind_ok_inv in H as ([] & o2 & r2 & H2 & H & ->); [|auto 10 with appends..].
  apply bind_ok_inv in H as ([] & o3 & r3 & H3 & H & ->); [|auto 10 with appends..].
  apply bind_ok_inv in H as ([] & o4 & r4 & H4 & H & ->); [|auto 10 with appends..].
  apply bind_ok_inv in H as ([] & o5 & r5 & H5 & H & ->); [|auto 10 with appends..].
  rewrite bind_write, write_run in H. injection H as <-.
  rewrite write_prologue_run in H1. injection H1 as <-.
  exists o2, o3, o4, o5. repeat (split; [assumption|]).
  unfold closing_text. now rewrite !app_nil_l_s.
Qed.

Lemma getitem_key_some (m : odict) (k : string) (v : json) :
  dict_get k m = Some v -> getitem_key (JObj m) k = Ok v.
Proof. intros H. simpl. unfold dict_getitem. now rewrite H. Qed.

Lemma getitem_key_none (m : odict) (k : string) :
  dict_get k m = None -> getitem_key (JObj m) k = Raise KeyError.
Proof. intros H. simpl. unfold dict_getitem. now rewrite H. Qed.

Lemma getitem_key_ok_inv (dev : json) (k : string) (v : json) :
  getitem_key dev k = Ok v -> exists m, dev = JObj m /\ dict_get k m = Some v.
Proof.
  destruct dev as [| | | | |m]; simpl; try discriminate.
  unfold dict_getitem. destruct (dict_get k m) eqn:E; [|discriminate].
  intros [= ->]. now exists m.
Qed.

Lemma write_declaration_run (device : string) (m : odict) (address size : json) :
  dict_get "address" m = Some address ->
  dict_get "size" m = Some size ->
  write_declaration device (JObj m) "" = (declaration_text device address size, Ok tt).
Proof.
  intros Ha Hs.
  unfold write_declaration, declaration_text, descriptor_declaration, address_size_text.
  rewrite bind_write, (getitem_key_some _ _ _ Ha), bind_lift_ok.
  rewrite bind_write, (getitem_key_some _ _ _ Hs), bind_lift_ok, write_run.
  rewrite app_nil_l_s, !app_assoc_s.
  change ("_dev_infos =" +:+ ?x) with ("_dev_infos" +:+ " =" +:+ x).
  reflexivity.
Qed.

Lemma write_declaration_no_address (device : string) (m : odict) :
  dict_get "address" m = None ->
  exists o, write_declaration device (JObj m) "" = (o, Raise KeyError).
Proof.
  intros Ha. unfold write_declaration.
  rewrite bind_write, (getitem_key_none _ _ Ha), bind_lift_raise. eauto.
Qed.

Lemma write_irqs_run (m : odict) (irq0 : json) (rest : list json) :
  dict_get "irqs" m = Some (JArr (irq0 :: rest)) ->
  write_irqs (JObj m) "" = (irqs_text (map py_str (irq0 :: rest)), Ok tt).
Proof.
  intros Hi. unfold write_irqs, irqs_text.
  rewrite (getitem_key_some _ _ _ Hi), bind_lift_ok, bind_write.
  simpl getitem_idx. rewrite bind_lift_ok, bind_write.
  simpl py_slice_from. rewrite bind_lift_ok. simpl py_iter. rewrite bind_lift_ok.
  unfold bind at 1.
  rewrite (for_each_write (fun irq => ", " +:+ py_str irq)), write_run.
  rewrite map_cons, concat_comma, map_map.
  now rewrite app_nil_l_s, ?app_assoc_s.
Qed.




Lemma irq_defines_loop_zero (dev : json) (items : list json) (n : nat) (buf : string) :
  Forall (fun irq => py_ne_zero irq = false) items ->
  for_each (enumerate_from n items) (write_irq_define dev) buf = (buf, Ok tt).
Proof.
  intros H; revert n; induction H as [|irq items Hz _ IH]; intros n; simpl.
  - reflexivity.
  - unfold bind, write_irq_define. simpl. rewrite Hz. unfold ret at 1. apply IH.
Qed.

Lemma write_gpio_ok (gpio : json) (o : string) :
  write_gpio gpio "" = (o, Ok tt) ->
  exists pp, gpio_fields gpio pp /\ o = gpio_line pp.
Proof.
  unfold write_gpio, gpio_fields, gpio_line, gpio_text.
  destruct (getitem_key gpio "port") as [port|e] eqn:E1; [|discriminate].
  rewrite bind_lift_ok.
  destruct (getitem_key gpio "pin") as [pin|e] eqn:E2; [|discriminate].
  rewrite bind_lift_ok, write_run, app_nil_l_s. intros [= <-].
  exists (port, pin). simpl. now repeat split.
Qed.

Lemma write_gpio_run (gpio : json) (pp : json * json) :
  gpio_fields gpio pp -> write_gpio gpio "" = (gpio_line pp, Ok tt).
Proof.
  intros [Hport Hpin]. unfold write_gpio, gpio_line, gpio_text.
  rewrite Hport, bind_lift_ok, Hpin, bind_lift_ok, write_run, app_nil_l_s.
  now rewrite ?app_assoc_s.
Qed.

Lemma gpio_loop_ok (pairs : list json) (o : string) :
  for_each pairs write_gpio "" = (o, Ok tt) ->
  exists pps, Forall2 gpio_fields pairs pps /\ o = flat (map gpio_line pps).
Proof.
  revert o; induction pairs as [|gpio pairs IH]; intros o H.
  - injection H as <-. exists []. split; [constructor | reflexivity].
  - simpl in H.
    apply bind_ok_inv in H as ([] & o1 & o2 & H1 & H2 & ->); [|auto 10 with appends..].
    destruct (IH _ H2) as (pps & HF & ->).
    destruct (write_gpio_ok _ _ H1) as (pp & Hpp & ->).
    exists (pp :: pps). split; [now constructor | reflexivity].
Qed.

Lemma gpio_loop_run (pairs : list json) (pps : list (json * json)) :
  Forall2 gpio_fields pairs pps ->
  for_each pairs write_gpio "" = (flat (map gpio_line pps), Ok tt).
Proof.
  induction 1 as [|gpio pp pairs pps Hpp _ IH]; [reflexivity|].
  simpl for_each.
  rewrite (bind_run _ _ tt (gpio_line pp) (flat (map gpio_line pps)) "" (Ok tt)).
  - reflexivity.
  - auto 10 with appends.
  - now rewrite app_nil_l_s, (write_gpio_run _ _ Hpp).
  - assumption.
Qed.

Lemma map_const_seq {A} (x : A) (a n : nat) : map (fun _ => x) (seq a n) = repeat x n.
Proof. revert a; induction n as [|n IH]; intros a; simpl; [reflexivity | now rewrite IH]. Qed.

(** The padding that follows [n] pairs. *)
Lemma gpio_padding_run (n : nat) (buf : string) :
  (if (n <? 4)%nat then for_each (seq n (4 - n)) (fun _ => write gpio_pad) else ret tt) buf
  = (buf +:+ flat (repeat gpio_pad (4 - n)), Ok tt).
Proof.
  destruct (n <? 4)%nat eqn:E.
  - now rewrite (for_each_write (fun _ => gpio_pad)), map_const_seq.
  - apply Nat.ltb_ge in E. replace (4 - n)%nat with 0%nat by lia.
    unfold ret. simpl. now rewrite app_nil_r_s.
Qed.

Lemma write_gpios_absent (m : odict) :
  dict_get "gpios" m = None ->
  write_gpios (JObj m) "" = (gpios_text (repeat gpio_pad 4), Ok tt).
Proof.
  intros Hg. unfold write_gpios, gpios_text.
  rewrite bind_write. simpl py_in. rewrite Hg, bind_lift_ok.
  unfold bind at 1. rewrite (for_each_write (fun _ => gpio_pad)), write_run.
  simpl map.
  now rewrite app_nil_l_s, ?app_assoc_s.
Qed.

Lemma write_gpios_present (m : odict) (pairs : list json) (o : string) (r : result unit) :
  dict_get "gpios" m = Some (JArr pairs) ->
  for_each pairs write_gpio "" = (o, r) ->
  write_gpios (JObj m) ""
  = match r with
    | Ok _ => (gpios_text [o; flat (repeat gpio_pad (4 - length pairs))], Ok tt)
    | Raise e => ("    .gpios[] = {" +:+ LF +:+ o, Raise e)
    end.
Proof.
  intros Hg Hl. unfold write_gpios, gpios_text.
  rewrite bind_write. simpl py_in. rewrite Hg, bind_lift_ok.
  rewrite bind_assoc, (getitem_key_some _ _ _ Hg), bind_lift_ok.
  simpl py_slice_from. rewrite bind_assoc, bind_lift_ok.
  simpl py_iter. rewrite bind_assoc, bind_lift_ok.
  rewrite bind_assoc. unfold bind at 1.
  rewrite (appends_run _ _ _ _ (appends_for_each _ _ appends_write_gpio) Hl).
  destruct r as [[]|e]; [|now rewrite app_nil_l_s].
  simpl py_len. rewrite bind_assoc, bind_lift_ok.
  unfold bind at 1. rewrite gpio_padding_run, write_run.
  simpl flat. now rewrite app_nil_l_s, app_nil_r_s, ?app_assoc_s.
Qed.

(** ** The world after a sequence of writes *)

Lemma world_eq (a b : world) :
  dirs a = dirs b -> files a = files b -> stdout a = stdout b -> a = b.
Proof. destruct a, b; simpl; congruence. Qed.

Lemma replay_app (l1 l2 : list ((string * string) * string)) (w : world) :
  replay (l1 ++ l2) w = replay l2 (replay l1 w).
Proof. unfold replay. now rewrite fold_left_app. Qed.

Lemma replay_dirs (log : list ((string * string) * string)) (w : world) :
  dirs (replay log w) = dirs w.
Proof. revert w; induction log as [|pc log IH]; intros w; [reflexivity|]. simpl. now rewrite IH. Qed.

Lemma replay_stdout (log : list ((string * string) * string)) (w : world) :
  stdout (replay log w) = stdout w.
Proof. revert w; induction log as [|pc log IH]; intros w; [reflexivity|]. simpl. now rewrite IH. Qed.

Lemma replay_lookup (log : list ((string * string) * string)) (w : world) (p : string * string) :
  files (replay log w) !! p
  = match last_written log p with
    | Some c => Some c
    | None => files w !! p
    end.
Proof.
  revert w; induction log as [|[q c] log IH]; intros w; [reflexivity|].
  simpl. rewrite IH. destruct (last_written log p); [reflexivity|].
  unfold set_file; simpl. rewrite lookup_insert. destruct (decide (q = p)); reflexivity.
Qed.

Lemma replay_idempotent (log : list ((string * string) * string)) (w : world) :
  replay log (replay log w) = replay log w.
Proof.
  apply world_eq.
  - now rewrite !replay_dirs.
  - apply map_eq; intros p. rewrite !replay_lookup.
    now destruct (last_written log p).
  - now rewrite !replay_stdout.
Qed.

Lemma writes_only_ret {A} (a : A) : writes_only (ret (S := world) a).
Proof. now exists [], (Ok a). Qed.

Lemma writes_only_lift {A} (r : result A) : writes_only (lift (S := world) r).
Proof. now exists [], r. Qed.

Lemma writes_only_with_open {A} (p : string * string) (body : M string A) :
  writes_only (with_open_w p body).
Proof.
  exists [(p, fst (body ""))], (snd (body "")). intros w.
  unfold with_open_w. now destruct (body "").
Qed.

Lemma writes_only_bind {A B} (c : M world A) (k : A -> M world B) :
  writes_only c -> (forall a, writes_only (k a)) -> writes_only (bind c k).
Proof.
  intros (l1 & [a|e] & H1) Hk.
  - destruct (Hk a) as (l2 & r2 & H2). exists (l1 ++ l2)%list, r2. intros w.
    unfold bind. now rewrite H1, H2, replay_app.
  - exists l1, (Raise e). intros w. unfold bind. now rewrite H1.
Qed.

Lemma writes_only_for_each {A} (l : list A) (body : A -> M world unit) :
  (forall x, writes_only (body x)) -> writes_only (for_each l body).
Proof.
  intros Hb. induction l as [|x l IH]; simpl.
  - apply writes_only_ret.
  - apply writes_only_bind; [apply Hb | intros _; apply IH].
Qed.

Lemma writes_only_emit_device (outdir : string) (data : odict) (device : string) :
  writes_only (emit_device outdir data device).
Proof.
  unfold emit_device.
  apply writes_only_bind; [apply writes_only_lift | intros dev].
  apply writes_only_bind; [apply writes_only_lift | intros size].
  destruct (py_eq_str size "0"); [apply writes_only_ret | apply writes_only_with_open].
Qed.

Lemma writes_only_generate_c (outdir : string) (data : odict) :
  writes_only (generate_c outdir data).
Proof.
  unfold generate_c.
  apply writes_only_bind; [apply writes_only_with_open | intros _].
  apply writes_only_for_each. intros device. apply writes_only_emit_device.
Qed.

(** The outcome of a run does not depend on what the world held. *)
Lemma generate_c_outcome (outdir : string) (data : odict) (w1 w2 : world) :
  snd (generate_c outdir data w1) = snd (generate_c outdir data w2).
Proof.
  destruct (writes_only_generate_c outdir data) as (log & r & H).
  now rewrite !H.
Qed.

(** ** One turn of the device loop *)

Lemma device_file_inj (outdir d d' : string) :
  device_file outdir d = device_file outdir d' -> d = d'.
Proof. unfold device_file, os_path_join. intros [= H]. now apply app_inj_r_s in H. Qed.

Lemma dict_get_in (k : string) (m : odict) (v : json) :
  dict_get k m = Some v -> In k (map fst m).
Proof.
  induction m as [|[k' v'] m IH]; simpl; [discriminate|].
  destruct (String.eqb_spec k k') as [->|Hne]; [now left | right; now apply IH].
Qed.

Lemma dict_get_app (k : string) (m1 m2 : odict) :
  dict_get k (m1 ++ m2)
  = match dict_get k m1 with
    | Some v => Some v
    | None => dict_get k m2
    end.
Proof.
  induction m1 as [|[k' v'] m1 IH]; simpl; [reflexivity|].
  now destruct (String.eqb k k').
Qed.

Lemma dict_get_not_in (k : string) (m : odict) :
  ~ In k (map fst m) -> dict_get k m = None.
Proof.
  intros H. destruct (dict_get k m) eqn:E; [|reflexivity].
  exfalso. apply H. eapply dict_get_in, E.
Qed.

Lemma dict_get_in_some (k : string) (m : odict) :
  In k (map fst m) -> exists v, dict_get k m = Some v.
Proof.
  induction m as [|[k' v'] m IH]; simpl; [contradiction|].
  intros H. destruct (String.eqb_spec k k') as [->|Hne]; [eauto|].
  destruct H as [H|H]; [congruence | now apply IH].
Qed.

Lemma emit_device_skipped (outdir : string) (data : odict) (d : string) :
  is_emitted data d = false ->
  exists r, forall w, emit_device outdir data d w = (w, r).
Proof.
  unfold is_emitted.
  destruct (dict_get d data) as [dev|] eqn:Hd.
  2: { intros _. exists (Raise KeyError). intros w.
       unfold emit_device, dict_getitem. now rewrite Hd. }
  destruct (getitem_key dev "size") as [size|e] eqn:Hs.
  2: { intros _. exists (Raise e). intros w.
       unfold emit_device, dict_getitem. now rewrite Hd, bind_lift_ok, Hs. }
  intros H. apply negb_false_iff in H. exists (Ok tt). intros w.
  unfold emit_device, dict_getitem. now rewrite Hd, bind_lift_ok, Hs, bind_lift_ok, H.
Qed.

Lemma emit_device_emitted (outdir : string) (data : odict) (d : string)
      (dev size : json) (w : world) :
  dict_get d data = Some dev ->
  getitem_key dev "size" = Ok size ->
  size <> JStr "0" ->
  emit_device outdir data d w
  = (set_file (device_file outdir d) (fst (device_body d (device_guard d) dev "")) w,
     snd (device_body d (device_guard d) dev "")).
Proof.
  intros Hd Hs Hne. apply py_eq_str_false in Hne.
  unfold emit_device, dict_getitem. rewrite Hd, bind_lift_ok, Hs, bind_lift_ok, Hne.
  unfold with_open_w, device_file, device_guard.
  now destruct (device_body _ _ _ "").
Qed.

Lemma is_emitted_true (data : odict) (d : string) :
  is_emitted data d = true ->
  exists dev size,
    dict_get d data = Some dev /\ getitem_key dev "size" = Ok size /\ size <> JStr "0".
Proof.
  unfold is_emitted.
  destruct (dict_get d data) as [dev|]; [|discriminate].
  destruct (getitem_key dev "size") as [size|e] eqn:E; [|discriminate].
  intros H. apply negb_true_iff, py_eq_str_false in H. now exists dev, size.
Qed.

Lemma is_emitted_iff (data : odict) (d : string) (dev size : json) :
  dict_get d data = Some dev -> getitem_key dev "size" = Ok size ->
  is_emitted data d = true <-> size <> JStr "0".
Proof.
  intros Hd Hs. unfold is_emitted. rewrite Hd, Hs.
  now rewrite negb_true_iff, py_eq_str_false.
Qed.


(** ** The device loop *)

Section Loop.

Variable outdir : string.
Variable data : odict.

Lemma for_each_cons_inv {S A} (x : A) (l : list A) (body : A -> M S unit)
      (s s' : S) (r : result unit) :
  for_each (x :: l) body s = (s', r) ->
  (exists e, body x s = (s', Raise e) /\ r = Raise e) \/
  (exists s1, body x s = (s1, Ok tt) /\ for_each l body s1 = (s', r)).
Proof.
  simpl. unfold bind. destruct (body x s) as [s1 [[]|e]].
  - intros H. right. now exists s1.
  - intros [= <- <-]. left. now exists e.
Qed.

(** A file that no emitted device of the list maps to is left as it was. *)
Lemma loop_frame (ks : list string) (w w' : world) (r : result unit) (p : string * string) :
  for_each ks (emit_device outdir data) w = (w', r) ->
  (forall d, In d ks -> is_emitted data d = true -> device_file outdir d <> p) ->
  files w' !! p = files w !! p.
Proof.
  revert w; induction ks as [|k ks IH]; intros w H Hp.
  - now injection H as <- _.
  - assert (Hk : forall w1 r1, emit_device outdir data k w = (w1, r1) ->
                               files w1 !! p = files w !! p).
    { intros w1 r1 E. destruct (is_emitted data k) eqn:Ek.
      - destruct (is_emitted_true _ _ Ek) as (dev & size & Hd & Hs & Hne).
        rewrite (emit_device_emitted _ _ _ _ _ _ Hd Hs Hne) in E.
        injection E as <- _. unfold set_file; simpl.
        apply lookup_insert_ne. apply Hp; [now left | assumption].
      - destruct (emit_device_skipped outdir _ _ Ek) as (r0 & H0).
        rewrite H0 in E. now injection E as <- _. }
    apply for_each_cons_inv in H as [(e & H & _)|(w1 & H1 & H2)].
    + eapply Hk, H.
    + rewrite (IH _ H2); [eapply Hk, H1|].
      intros d Hd. apply Hp. now right.
Qed.

(** After a loop that finishes, every emitted device of the list has its
    file, holding the header written for it. *)
Lemma loop_emitted (ks : list string) (w w' : world) (d : string) (dev : json) :
  for_each ks (emit_device outdir data) w = (w', Ok tt) ->
  In d ks -> is_emitted data d = true -> dict_get d data = Some dev ->
  exists c, device_body d (device_guard d) dev "" = (c, Ok tt) /\
            files w' !! device_file outdir d = Some c.
Proof.
  revert w; induction ks as [|k ks IH]; intros w H Hin Hem Hd; [contradiction|].
  apply for_each_cons_inv in H as [(e & _ & ?)|(w1 & H1 & H2)]; [discriminate|].
  destruct (in_dec string_dec d ks) as [Hks|Hks]; [now apply (IH w1)|].
  destruct Hin as [->|Hin]; [|contradiction].
  destruct (is_emitted_true _ _ Hem) as (dev' & size & Hd' & Hs & Hne).
  assert (dev' = dev) as -> by congruence.
  rewrite (emit_device_emitted _ _ _ _ _ _ Hd Hs Hne) in H1.
  destruct (device_body d (device_guard d) dev "") as [c r] eqn:E.
  simpl in H1. injection H1 as <- ->. exists c. split; [reflexivity|].
  rewrite (loop_frame _ _ _ _ _ H2).
  - unfold set_file; simpl. apply lookup_insert_eq.
  - intros d' Hd'' _ Heq. apply device_file_inj in Heq. congruence.
Qed.


End Loop.

(** ** A run that stops at a device *)

Lemma for_each_app_ok {S A} (l1 l2 : list A) (body : A -> M S unit) (s s1 : S) :
  for_each l1 body s = (s1, Ok tt) ->
  for_each (l1 ++ l2) body s = for_each l2 body s1.
Proof.
  revert s; induction l1 as [|x l1 IH]; intros s H.
  - now injection H as ->.
  - apply for_each_cons_inv in H as [(e & _ & ?)|(s0 & H1 & H2)]; [discriminate|].
    simpl. unfold bind. rewrite H1. now apply IH.
Qed.

Lemma for_each_ext {S A} (l : list A) (f g : A -> M S unit) (s : S) :
  (forall x s0, In x l -> f x s0 = g x s0) ->
  for_each l f s = for_each l g s.
Proof.
  revert s; induction l as [|x l IH]; intros s H; [reflexivity|].
  simpl. unfold bind. rewrite (H x s) by now left.
  destruct (g x s) as [s1 [[]|e]]; [|reflexivity].
  apply IH. intros y s0 Hy. apply H. now right.
Qed.

Lemma emit_device_ext (outdir : string) (data data' : odict) (d : string) (w : world) :
  dict_get d data = dict_get d data' ->
  emit_device outdir data d w = emit_device outdir data' d w.
Proof. intros H. unfold emit_device, dict_getitem. now rewrite H. Qed.

(** The devices after a prefix that was emitted without failure are handled
    from the world that prefix left. *)
Lemma generate_c_prefix (outdir : string) (pre rest : odict) (w w1 : world) :
  generate_c outdir pre w = (w1, Ok tt) ->
  generate_c outdir (pre ++ rest) w
  = for_each (map fst rest) (emit_device outdir (pre ++ rest)) w1.
Proof.
  unfold generate_c, bind.
  destruct (with_open_w _ devinfo_body w) as [w0 [[]|e]]; [|discriminate].
  intros H. rewrite map_app. apply for_each_app_ok.
  rewrite <- H. apply for_each_ext. intros d s0 Hd.
  apply emit_device_ext. rewrite dict_get_app.
  now destruct (dict_get_in_some _ _ Hd) as (v & ->).
Qed.

Lemma dict_get_here (pre post : odict) (d : string) (dev : json) :
  ~ In d (map fst pre) -> dict_get d (pre ++ (d, dev) :: post) = Some dev.
Proof.
  intros H. rewrite dict_get_app, (dict_get_not_in _ _ H). simpl.
  now rewrite String.eqb_refl.
Qed.

Lemma generate_c_abort (outdir : string) (pre post : odict) (d : string) (dev : json)
      (w w1 w2 : world) (e : exn) :
  ~ In d (map fst pre) ->
  generate_c outdir pre w = (w1, Ok tt) ->
  emit_device outdir [(d, dev)] d w1 = (w2, Raise e) ->
  generate_c outdir (pre ++ (d, dev) :: post) w = (w2, Raise e).
Proof.
  intros Hd Hpre He. rewrite (generate_c_prefix _ _ _ _ _ Hpre).
  simpl. unfold bind.
  rewrite (emit_device_ext _ _ [(d, dev)]), He; [reflexivity|].
  rewrite (dict_get_here _ _ _ _ Hd). simpl. now rewrite String.eqb_refl.
Qed.

(** The exit status of the script after a correct invocation. *)
Lemma main_status (argv0 outdir filename : string) (data : odict) (w w0 : world) :
  json_load filename = Ok (JObj data) ->
  snd (main argv0 [outdir; filename] w0) = exit_status (snd (generate_c outdir data w)).
Proof.
  intros H. unfold main. simpl. rewrite H. unfold generate_c_document.
  set (w1 := if os_path_exists outdir w0 then w0 else os_makedirs outdir w0).
  rewrite (generate_c_outcome outdir data w w1).
  now destruct (generate_c outdir data w1).
Qed.

(** ** What a successful device header holds *)

Lemma write_declaration_ok_inv (device : string) (m : odict) (o : string) :
  write_declaration device (JObj m) "" = (o, Ok tt) ->
  exists address size,
    dict_get "address" m = Some address /\ dict_get "size" m = Some size /\
    o = declaration_text device address size.
Proof.
  intros H.
  destruct (dict_get "address" m) as [address|] eqn:Ha.
  2: { destruct (write_declaration_no_address device m Ha) as (o' & H'). congruence. }
  destruct (dict_get "size" m) as [size|] eqn:Hs.
  - rewrite (write_declaration_run _ _ _ _ Ha Hs) in H. injection H as <-.
    now exists address, size.
  - unfold write_declaration in H.
    rewrite bind_write, (getitem_key_some _ _ _ Ha), bind_lift_ok in H.
    rewrite bind_write, (getitem_key_none _ _ Hs), bind_lift_raise in H. discriminate.
Qed.

Lemma declaration_contains (device : string) (address size : json) :
  contains (descriptor_declaration device) (declaration_text device address size).
Proof.
  apply contains_intro.
Qed.



Lemma prefix_app (a b : string) : String.prefix a b = true -> exists post, b = a +:+ post.
Proof.
  revert b; induction a as [|x a IH]; intros b H.
  - now exists b.
  - destruct b as [|y b]; [discriminate|]. simpl in H.
    destruct (ascii_dec x y) as [->|]; [|discriminate].
    destruct (IH _ H) as (post & ->). now exists post.
Qed.

Lemma is_substring_eq (needle hay : string) :
  is_substring needle hay
  = String.prefix needle hay ||
    match hay with
    | EmptyString => false
    | String _ hay' => is_substring needle hay'
    end.
Proof. now destruct hay. Qed.

Lemma is_substring_contains (needle hay : string) :
  is_substring needle hay = true -> contains needle hay.
Proof.
  induction hay as [|y hay IH]; rewrite is_substring_eq; intros H;
    apply orb_true_iff in H as [H|H].
  - destruct (prefix_app _ _ H) as (post & E). exists "", post. now rewrite app_nil_l_s.
  - discriminate.
  - destruct (prefix_app _ _ H) as (post & E). exists "", post. now rewrite app_nil_l_s.
  - destruct (IH H) as (pre & post & ->). now exists (String y pre), post.
Qed.

Lemma devinfo_body_run : devinfo_body "" = (devinfo_text, Ok tt).
Proof.
  unfold devinfo_body, devinfo_text.
  rewrite !bind_write, write_run, app_nil_l_s. now rewrite !app_assoc_s.
Qed.

Lemma shared_header_run (outdir : string) (w : world) :
  with_open_w (os_path_join outdir "devinfo.h") devinfo_body w
  = (set_file (outdir, "devinfo.h") devinfo_text w, Ok tt).
Proof. unfold with_open_w. now rewrite devinfo_body_run. Qed.

Lemma generate_c_unfold (outdir : string) (data : odict) (w : world) :
  generate_c outdir data w
  = for_each (map fst data) (emit_device outdir data)
             (set_file (outdir, "devinfo.h") devinfo_text w).
Proof. unfold generate_c, bind. now rewrite shared_header_run. Qed.

Lemma device_file_not_shared (outdir d : string) :
  d <> "devinfo" -> (outdir, "devinfo.h") <> device_file outdir d.
Proof.
  intros Hd [= H]. apply Hd. symmetry.
  apply (app_inj_r_s ".h"). exact H.
Qed.


Lemma Forall2_same_length {A B} (P : A -> B -> Prop) (l : list A) (k : list B) :
  Forall2 P l k -> length l = length k.
Proof. induction 1; simpl; [reflexivity | now f_equal]. Qed.

(** Sequencing two blocks of a header. *)
Lemma seq_run (c1 c2 : M string unit) (o1 buf : string) :
  appends c1 -> c1 "" = (o1, Ok tt) ->
  bind c1 (fun _ => c2) buf = c2 (buf +:+ o1).
Proof. intros H1 E. unfold bind. now rewrite (appends_run _ _ _ _ H1 E). Qed.

Lemma seq_raise (c1 c2 : M string unit) (o1 buf : string) (e : exn) :
  appends c1 -> c1 "" = (o1, Raise e) ->
  bind c1 (fun _ => c2) buf = (buf +:+ o1, Raise e).
Proof. intros H1 E. unfold bind. now rewrite (appends_run _ _ _ _ H1 E). Qed.

Lemma device_body_run (device g : string) (dev : json) (o2 o3 o4 o5 : string) :
  write_irq_defines dev "" = (o2, Ok tt) ->
  write_declaration device dev "" = (o3, Ok tt) ->
  write_irqs dev "" = (o4, Ok tt) ->
  write_gpios dev "" = (o5, Ok tt) ->
  device_body device g dev ""
  = (prologue_text g +:+ o2 +:+ o3 +:+ o4 +:+ o5 +:+ closing_text, Ok tt).
Proof.
  intros H2 H3 H4 H5. unfold device_body.
  rewrite (seq_run _ _ _ _ (appends_write_prologue g) (write_prologue_run g)).
  rewrite (seq_run _ _ _ _ (appends_write_irq_defines dev) H2).
  rewrite (seq_run _ _ _ _ (appends_write_declaration device dev) H3).
  rewrite (seq_run _ _ _ _ (appends_write_irqs dev) H4).
  rewrite (seq_run _ _ _ _ (appends_write_gpios dev) H5).
  rewrite bind_write, write_run. unfold closing_text.
  now rewrite app_nil_l_s, !app_assoc_s.
Qed.

Lemma device_body_raise_defines (device g : string) (dev : json) (o2 : string) (e : exn) :
  write_irq_defines dev "" = (o2, Raise e) ->
  device_body device g dev "" = (prologue_text g +:+ o2, Raise e).
Proof.
  intros H2. unfold device_body.
  rewrite (seq_run _ _ _ _ (appends_write_prologue g) (write_prologue_run g)).
  rewrite (seq_raise _ _ _ _ _ (appends_write_irq_defines dev) H2).
  now rewrite app_nil_l_s.
Qed.

Lemma device_body_raise_declaration (device g : string) (dev : json) (o2 o3 : string) (e : exn) :
  write_irq_defines dev "" = (o2, Ok tt) ->
  write_declaration device dev "" = (o3, Raise e) ->
  device_body device g dev "" = (prologue_text g +:+ o2 +:+ o3, Raise e).
Proof.
  intros H2 H3. unfold device_body.
  rewrite (seq_run _ _ _ _ (appends_write_prologue g) (write_prologue_run g)).
  rewrite (seq_run _ _ _ _ (appends_write_irq_defines dev) H2).
  rewrite (seq_raise _ _ _ _ _ (appends_write_declaration device dev) H3).
  now rewrite app_nil_l_s, !app_assoc_s.
Qed.


Lemma write_irq_defines_zero (m : odict) (items : list json) :
  dict_get "irqs" m = Some (JArr items) ->
  Forall (fun irq => py_ne_zero irq = false) items ->
  write_irq_defines (JObj m) "" = ("", Ok tt).
Proof.
  intros Hi Hz. unfold write_irq_defines.
  rewrite (getitem_key_some _ _ _ Hi), bind_lift_ok. simpl py_iter.
  rewrite bind_lift_ok. now apply irq_defines_loop_zero.
Qed.

Lemma write_irq_defines_no_irqs (m : odict) :
  dict_get "irqs" m = None ->
  write_irq_defines (JObj m) "" = ("", Raise KeyError).
Proof.
  intros Hi. unfold write_irq_defines.
  now rewrite (getitem_key_none _ _ Hi), bind_lift_raise.
Qed.

Lemma dict_get_single (d : string) (dev : json) : dict_get d [(d, dev)] = Some dev.
Proof. simpl. now rewrite String.eqb_refl. Qed.

(** The turn of a device that lacks [size], or is mappable and lacks [irqs]
    or [address], raises. *)
Lemma emit_device_missing_field (outdir d : string) (m : odict) (w1 : world) :
  (dict_get "size" m = None \/
   exists size, dict_get "size" m = Some size /\ size <> JStr "0" /\
                (dict_get "irqs" m = None \/ dict_get "address" m = None)) ->
  exists e w2,
    emit_device outdir [(d, JObj m)] d w1 = (w2, Raise e) /\
    (dict_get "size" m = None -> w2 = w1) /\
    (forall size, dict_get "size" m = Some size -> size <> JStr "0" ->
                  dict_get "irqs" m = None ->
                  e = KeyError /\
                  w2 = set_file (outdir, d +:+ ".h") (prologue_text (device_guard d)) w1).
Proof.
  intros [Hs|(size & Hs & Hne & Hmiss)].
  - exists KeyError, w1. split; [|split; [reflexivity | congruence]].
    unfold emit_device, dict_getitem.
    now rewrite dict_get_single, bind_lift_ok, (getitem_key_none _ _ Hs), bind_lift_raise.
  - pose proof (emit_device_emitted outdir _ _ _ _ w1 (dict_get_single d (JObj m))
                  (getitem_key_some _ _ _ Hs) Hne) as E.
    destruct (dict_get "irqs" m) as [irqs|] eqn:Hi.
    + destruct Hmiss as [?|Ha]; [discriminate|].
      destruct (write_irq_defines (JObj m) "") as [o2 [[]|e]] eqn:H2.
      * destruct (write_declaration_no_address d m Ha) as (o3 & H3).
        rewrite (device_body_raise_declaration _ _ _ _ _ _ H2 H3) in E.
        eexists _, _. split; [exact E|]. split; [congruence | discriminate].
      * rewrite (device_body_raise_defines _ _ _ _ _ H2) in E.
        eexists _, _. split; [exact E|]. split; [congruence | discriminate].
    + rewrite (device_body_raise_defines _ _ _ _ _ (write_irq_defines_no_irqs _ Hi)) in E.
      simpl fst in E. simpl snd in E. rewrite app_nil_r_s in E.
      eexists _, _. split; [exact E|]. split; [congruence|].
      intros _ _ _ _. split; reflexivity.
Qed.

(** After a run that completes, the file of a device that is written out
    holds the header its [with] block wrote. *)
Lemma emitted_file (outdir : string) (data : odict) (w w' : world)
      (d : string) (m : odict) (size : json) :
  generate_c outdir data w = (w', Ok tt) ->
  dict_get d data = Some (JObj m) ->
  dict_get "size" m = Some size ->
  size <> JStr "0" ->
  exists c, device_body d (device_guard d) (JObj m) "" = (c, Ok tt) /\
            files w' !! (outdir, d +:+ ".h") = Some c.
Proof.
  intros Hrun Hd Hs Hne. rewrite generate_c_unfold in Hrun.
  pose proof (dict_get_in _ _ _ Hd) as Hin.
  pose proof (proj2 (is_emitted_iff _ _ _ _ Hd (getitem_key_some _ _ _ Hs)) Hne) as Hem.
  exact (loop_emitted _ _ _ _ _ _ _ Hrun Hin Hem Hd).
Qed.


Lemma emit_device_size_zero (outdir : string) (data : odict) (d : string) (m : odict)
      (w : world) :
  dict_get d data = Some (JObj m) ->
  dict_get "size" m = Some (JStr "0") ->
  emit_device outdir data d w = (w, Ok tt).
Proof.
  intros Hd Hs. unfold emit_device, dict_getitem.
  now rewrite Hd, bind_lift_ok, (getitem_key_some _ _ _ Hs), bind_lift_ok.
Qed.

(** ** The claims *)


(** C2.  The scenario of the specification, run into any directory holding no
    file: the files afterwards are exactly [devinfo.h] and [usart1.h] (there
    is no [dma1.h]); [usart1.h] is the header expected for it, which defines
    [USART1_IRQ] as 37 and lists the GPIO pairs {1,9}, {1,10}, {0,0}, {0,0}. *)
Theorem scenario_output (outdir : string) (ds : gset string) (out : string) :
  let after :=
    <[(outdir, "usart1.h") := usart1_header]> (<[(outdir, "devinfo.h") := devinfo_text]> ∅) in
  generate_c outdir scenario_doc (mkWorld ds ∅ out) = (mkWorld ds after out, Ok tt) /\
  dom after = {[ (outdir, "devinfo.h"); (outdir, "usart1.h") ]} /\
  after !! (outdir, "dma1.h") = None /\
  contains ("#define USART1_IRQ 37" +:+ LF) usart1_header /\
  contains ("    .gpios[] = {" +:+ LF
            +:+ "      { 1, 9 }," +:+ LF
            +:+ "      { 1, 10 }," +:+ LF
            +:+ "      { 0, 0 }," +:+ LF
            +:+ "      { 0, 0 }," +:+ LF
            +:+ "    }" +:+ LF) usart1_header.
Proof.
  intros after. split; [|split; [|split; [|split]]].
  - rewrite generate_c_unfold. simpl map. simpl for_each. unfold bind.
    assert (E1 : forall w, emit_device outdir scenario_doc "dma1" w = (w, Ok tt))
      by reflexivity.
    rewrite E1.
    assert (E2 : device_body "usart1" (device_guard "usart1") (JObj usart1_fields) ""
                 = (usart1_header, Ok tt)) by (vm_compute; reflexivity).
    rewrite (emit_device_emitted outdir scenario_doc "usart1" (JObj usart1_fields)
               (JStr "0x400")); [|reflexivity|reflexivity|discriminate].
    rewrite E2. reflexivity.
  - subst after. rewrite !dom_insert_L, dom_empty_L, (right_id_L ∅ (∪)).
    apply (comm_L (∪)).
  - subst after. rewrite !lookup_insert_ne by discriminate.
    apply lookup_empty.
  - apply is_substring_contains. vm_compute. reflexivity.
  - apply is_substring_contains. vm_compute. reflexivity.
Qed.







(** C6 (amended).  Take a document whose device names, up to the device [d],
    are plain stems, whose devices before [d] are all handled without
    failure, and in which [d] lacks [size], or has a size other than ["0"]
    and lacks [irqs] or [address].  The run raises at [d]: the world it leaves
    and the exception are those of the document cut after [d], so no later
    device is processed, and the script exits with status 1.  A device
    lacking [size] leaves no file; a mappable device lacking [irqs] leaves a
    file holding only the prologue.  Had [d] the size ["0"] it would be
    skipped before any other field is looked up: whatever its other fields,
    the document cut after it completes and leaves what the devices before
    it left. *)
Theorem missing_field_aborts_run
        (outdir : string) (pre post : odict) (d : string) (m : odict) (w w1 : world) :
  plain_names pre = true ->
  plain_stem d = true ->
  ~ In d (map fst pre) ->
  generate_c outdir pre w = (w1, Ok tt) ->
  (dict_get "size" m = None \/
   exists size, dict_get "size" m = Some size /\ size <> JStr "0" /\
                (dict_get "irqs" m = None \/ dict_get "address" m = None)) ->
  (exists e w2,
    generate_c outdir (pre ++ (d, JObj m) :: post) w = (w2, Raise e) /\
    generate_c outdir (pre ++ [(d, JObj m)]) w = (w2, Raise e) /\
    (forall argv0 filename w0,
       json_load filename = Ok (JObj (pre ++ (d, JObj m) :: post)) ->
       snd (main argv0 [outdir; filename] w0) = 1) /\
    (dict_get "size" m = None -> w2 = w1) /\
    (forall size, dict_get "size" m = Some size -> size <> JStr "0" ->
                  dict_get "irqs" m = None ->
                  e = KeyError /\
                  w2 = set_file (outdir, d +:+ ".h") (prologue_text (device_guard d)) w1)) /\
  (forall skipped,
     dict_get "size" skipped = Some (JStr "0") ->
     generate_c outdir (pre ++ [(d, JObj skipped)]) w = (w1, Ok tt)).
Proof.
  intros _ _ Hd Hpre Hmiss. split.
  2: { intros skipped Hs.
       rewrite (generate_c_prefix _ _ [(d, JObj skipped)] _ _ Hpre).
       simpl map. simpl for_each. unfold bind.
       now rewrite (emit_device_size_zero _ _ _ skipped w1 (dict_get_here _ _ _ _ Hd) Hs). }
  destruct (emit_device_missing_field outdir d m w1 Hmiss) as (e & w2 & He & Hsize & Hirqs).
  exists e, w2.
  pose proof (generate_c_abort _ _ post _ _ _ _ _ _ Hd Hpre He) as Hrun.
  split; [exact Hrun|]. split; [exact (generate_c_abort _ _ [] _ _ _ _ _ _ Hd Hpre He)|].
  split; [|split; assumption].
  intros argv0 filename w0 Hload.
  rewrite (main_status argv0 outdir filename _ w w0 Hload), Hrun. reflexivity.
Qed.

(** C8.  Invoked with a number of positional arguments other than two, the
    script prints the usage message on standard output and exits with status
    1; no directory is created and no file is written. *)
Theorem usage_error_touches_nothing (argv0 : string) (args : list string) (w : world) :
  length args <> 2%nat ->
  exists w',
    main argv0 args w = (w', 1) /\
    dirs w' = dirs w /\
    files w' = files w /\
    stdout w' = stdout w +:+ "usage:  " +:+ argv0 +:+ " <outdir> <filename.json>" +:+ LF +:+ LF.
Proof.
  intros Hlen. unfold main. simpl length.
  replace (Nat.eqb (S (length args)) 3) with false.
  2: { symmetry. apply Nat.eqb_neq. lia. }
  simpl negb. cbv iota. eexists. split; [reflexivity|].
  unfold print; simpl. repeat split.
  change (String.concat " " ["usage: "; argv0; "<outdir> <filename.json>" +:+ LF])
    with ("usage: " +:+ " " +:+ argv0 +:+ " " +:+ "<outdir> <filename.json>" +:+ LF).
  now rewrite !app_assoc_s.
Qed.

(** C9.  What a run does is fixed by the output directory name and the
    document.  Its outcome does not depend on what the directory held; each
    file is either given the same content whatever was there before, or left
    untouched; and a second run over the result of a first one changes
    nothing, giving the same files and the same outcome. *)
Theorem generate_c_reproducible (outdir : string) (data : odict) :
  (forall w1 w2, snd (generate_c outdir data w1) = snd (generate_c outdir data w2)) /\
  (forall w1 w2 p,
     files (fst (generate_c outdir data w1)) !! p = files (fst (generate_c outdir data w2)) !! p \/
     (files (fst (generate_c outdir data w1)) !! p = files w1 !! p /\
      files (fst (generate_c outdir data w2)) !! p = files w2 !! p)) /\
  (forall w, generate_c outdir data (fst (generate_c outdir data w)) = generate_c outdir data w).
Proof.
  destruct (writes_only_generate_c outdir data) as (log & r & H).
  split; [|split].
  - intros w1 w2. now rewrite !H.
  - intros w1 w2 p. rewrite !H. simpl. rewrite !replay_lookup.
    destruct (last_written log p); [now left | now right].
  - intros w. rewrite !H. simpl. now rewrite replay_idempotent.
Qed.


(** ** Further properties of the generator *)

Lemma dict_get_some_in (k : string) (m : odict) (v : json) :
  dict_get k m = Some v -> In (k, v) m.
Proof.
  induction m as [|[k' v'] m IH]; simpl; [discriminate|].
  destruct (String.eqb_spec k k') as [->|Hne].
  - intros [= ->]. now left.
  - intros H. right. now apply IH.
Qed.

Lemma for_each_unchanged {S A} (l : list A) (body : A -> M S unit) (s : S) :
  (forall x, In x l -> body x s = (s, Ok tt)) ->
  for_each l body s = (s, Ok tt).
Proof.
  induction l as [|x l IH]; intros H; [reflexivity|].
  simpl. unfold bind. rewrite (H x) by now left.
  apply IH. intros y Hy. apply H. now right.
Qed.

(** One turn of the loop touches no file but the one of its device. *)
Lemma emit_device_frame (outdir : string) (data : odict) (d : string)
      (w w' : world) (r : result unit) (p : string * string) :
  emit_device outdir data d w = (w', r) ->
  p <> device_file outdir d ->
  files w' !! p = files w !! p.
Proof.
  intros E Hp. destruct (is_emitted data d) eqn:Hem.
  - destruct (is_emitted_true _ _ Hem) as (dev & size & Hd & Hs & Hne).
    rewrite (emit_device_emitted _ _ _ _ _ _ Hd Hs Hne) in E.
    injection E as <- _. unfold set_file; simpl.
    now apply lookup_insert_ne.
  - destruct (emit_device_skipped outdir _ _ Hem) as (r0 & H0).
    rewrite H0 in E. now injection E as <- _.
Qed.

(** Whatever its outcome, a device header starts with the prologue. *)
Lemma device_body_prefix (device g : string) (dev : json) :
  exists rest, fst (device_body device g dev "") = prologue_text g +:+ rest.
Proof.
  unfold device_body.
  rewrite (seq_run _ _ _ _ (appends_write_prologue g) (write_prologue_run g)).
  rewrite app_nil_l_s.
  match goal with
  | |- exists rest, fst (?k _) = _ => assert (Hk : appends k) by auto 20 with appends
  end.
  rewrite Hk. simpl. eauto.
Qed.

Lemma replay_files_ext (log : list ((string * string) * string)) (w1 w2 : world) :
  files w1 = files w2 -> files (replay log w1) = files (replay log w2).
Proof.
  intros H. apply map_eq; intros p. rewrite !replay_lookup. now rewrite H.
Qed.

(** X1.  When every device of the document is an object whose size is the
    string ["0"] (in particular when the document has no device), the run
    completes and writes the shared header and nothing else. *)
Theorem only_shared_header_when_all_skipped (outdir : string) (data : odict) (w : world) :
  Forall (fun kv => exists m, snd kv = JObj m /\ dict_get "size" m = Some (JStr "0")) data ->
  generate_c outdir data w = (set_file (outdir, "devinfo.h") devinfo_text w, Ok tt).
Proof.
  intros Hall. rewrite generate_c_unfold. apply for_each_unchanged.
  intros d Hd. destruct (dict_get_in_some _ _ Hd) as (dev & Hdev).
  pose proof (dict_get_some_in _ _ _ Hdev) as Hin.
  rewrite List.Forall_forall in Hall.
  destruct (Hall _ Hin) as (m & Hm & Hs). simpl in Hm. subst dev.
  now apply (emit_device_size_zero _ _ _ m).
Qed.

(** X2.  Over a document whose device names are plain stems, unless a
    device named [devinfo] is written out, the shared header is in the output
    directory after the run with its fixed content, whether the run completes
    or raises. *)
Theorem shared_header_always_written (outdir : string) (data : odict) (w : world) :
  plain_names data = true ->
  is_emitted data "devinfo" = false ->
  files (fst (generate_c outdir data w)) !! (outdir, "devinfo.h") = Some devinfo_text.
Proof.
  intros _ Hno. rewrite generate_c_unfold.
  destruct (for_each _ _ _) as [w' r] eqn:E. simpl.
  rewrite (loop_frame _ _ _ _ _ _ _ E).
  - unfold set_file; simpl. apply lookup_insert_eq.
  - intros d _ Hem Heq.
    destruct (decide (d = "devinfo")) as [->|Hne]; [congruence|].
    now apply (device_file_not_shared outdir d Hne).
Qed.

(** X4.  Over a document whose device names are plain stems, a run leaves
    the directories and the standard output as they were and removes no file;
    and the file [<name>.h] of any plain stem other than [devinfo] that is not
    a device written out is left untouched.  This holds whether the run
    completes or raises. *)
Theorem generate_c_frame (outdir : string) (data : odict) (w : world) :
  plain_names data = true ->
  dirs (fst (generate_c outdir data w)) = dirs w /\
  stdout (fst (generate_c outdir data w)) = stdout w /\
  (forall p, is_Some (files w !! p) -> is_Some (files (fst (generate_c outdir data w)) !! p)) /\
  (forall name,
     plain_stem name = true ->
     name <> "devinfo" ->
     ~ (In name (map fst data) /\ is_emitted data name = true) ->
     files (fst (generate_c outdir data w)) !! (outdir, name +:+ ".h")
     = files w !! (outdir, name +:+ ".h")).
Proof.
  intros _.
  destruct (writes_only_generate_c outdir data) as (log & r & H).
  split; [|split; [|split]].
  - rewrite H. apply replay_dirs.
  - rewrite H. apply replay_stdout.
  - intros p Hp. rewrite H. simpl. rewrite replay_lookup.
    destruct (last_written log p); [eauto | assumption].
  - intros name _ Hshared Hdev. rewrite generate_c_unfold.
    destruct (for_each _ _ _) as [w' r'] eqn:E. simpl.
    change (outdir, name +:+ ".h") with (device_file outdir name).
    rewrite (loop_frame _ _ _ _ _ _ _ E).
    + unfold set_file; simpl. apply lookup_insert_ne.
      now apply device_file_not_shared.
    + intros d Hd Hem Heq. apply device_file_inj in Heq. subst d.
      apply Hdev. now split.
Qed.

(** X5.  The skip test compares the size with the string ["0"] and nothing
    else.  A device (named by a plain stem) whose size is that string is
    skipped whatever its other fields are; with any other size (the number 0
    included) its file is opened, and the file starts with the prologue
    whatever happens next. *)
Theorem skip_rule_is_string_equality
        (outdir : string) (data : odict) (d : string) (m : odict) (w : world) :
  plain_stem d = true ->
  dict_get d data = Some (JObj m) ->
  (dict_get "size" m = Some (JStr "0") -> emit_device outdir data d w = (w, Ok tt)) /\
  (forall size,
     dict_get "size" m = Some size -> size <> JStr "0" ->
     exists rest r,
       emit_device outdir data d w
       = (set_file (outdir, d +:+ ".h") (prologue_text (device_guard d) +:+ rest) w, r)) /\
  (dict_get "size" m = Some (JNum 0) ->
   is_Some (files (fst (emit_device outdir data d w)) !! (outdir, d +:+ ".h"))).
Proof.
  intros _ Hd.
  assert (Hopen : forall size,
     dict_get "size" m = Some size -> size <> JStr "0" ->
     exists rest r,
       emit_device outdir data d w
       = (set_file (outdir, d +:+ ".h") (prologue_text (device_guard d) +:+ rest) w, r)).
  { intros size Hs Hne.
    rewrite (emit_device_emitted _ _ _ _ _ w Hd (getitem_key_some _ _ _ Hs) Hne).
    destruct (device_body_prefix d (device_guard d) (JObj m)) as (rest & ->).
    now exists rest, (snd (device_body d (device_guard d) (JObj m) "")). }
  split; [|split].
  - now apply emit_device_size_zero.
  - exact Hopen.
  - intros Hs. destruct (Hopen (JNum 0) Hs) as (rest & r & ->); [discriminate|].
    unfold set_file; simpl. rewrite lookup_insert_eq. eauto.
Qed.

(** X10.  A device whose descriptor is not a JSON object (a string, a number,
    a list, ...) stops the run with a type error at the size lookup, before
    any file is opened for it. *)
Theorem descriptor_not_an_object
        (outdir : string) (data : odict) (d : string) (dev : json) (w : world) :
  dict_get d data = Some dev ->
  (forall m, dev <> JObj m) ->
  emit_device outdir data d w = (w, Raise TypeError).
Proof.
  intros Hd Hobj. unfold emit_device, dict_getitem. rewrite Hd, bind_lift_ok.
  destruct dev as [| | | | |m]; try reflexivity. now destruct (Hobj m).
Qed.

Lemma for_each_pure {S A} (l : list A) (body : A -> M S unit) :
  (forall x, exists r, forall s, body x s = (s, r)) ->
  exists r, forall s, for_each l body s = (s, r).
Proof.
  intros Hb. induction l as [|x l IH]; simpl.
  - now exists (Ok tt).
  - destruct (Hb x) as ([[]|e] & Hx); destruct IH as (r & IH).
    + exists r. intros s. unfold bind. now rewrite Hx.
    + exists (Raise e). intros s. unfold bind. now rewrite Hx.
Qed.

(** A document that is not an object gets the shared header and nothing
    else. *)
Lemma generate_c_document_not_object (outdir : string) (doc : json) :
  (forall m, doc <> JObj m) ->
  exists r, forall w,
    generate_c_document outdir doc w
    = (set_file (outdir, "devinfo.h") devinfo_text w, r).
Proof.
  intros Hobj.
  assert (Hloop : forall devices,
    exists r, forall s : world,
      for_each devices (fun device =>
        dev <- lift (match doc with
                     | JArr l => list_getitem l device
                     | _ => Raise TypeError
                     end) ;;
        size <- lift (getitem_key dev "size") ;;
        if py_eq_str size "0" then ret tt else lift (Raise TypeError)) s = (s, r)).
  { intros devices. apply for_each_pure. intros device.
    destruct (match doc with JArr l => list_getitem l device | _ => Raise TypeError end)
      as [dev|e]; [|now exists (Raise e)].
    destruct (getitem_key dev "size") as [size|e] eqn:Hs.
    - destruct (py_eq_str size "0") eqn:Hz.
      + exists (Ok tt). intros s. now rewrite bind_lift_ok, Hs, bind_lift_ok, Hz.
      + exists (Raise TypeError). intros s. now rewrite bind_lift_ok, Hs, bind_lift_ok, Hz.
    - exists (Raise e). intros s. now rewrite bind_lift_ok, Hs. }
  assert (Hgen : exists r, forall w,
    (with_open_w (os_path_join outdir "devinfo.h") devinfo_body ;;
     devices <- lift (py_iter doc) ;;
     for_each devices (fun device =>
        dev <- lift (match doc with
                     | JArr l => list_getitem l device
                     | _ => Raise TypeError
                     end) ;;
        size <- lift (getitem_key dev "size") ;;
        if py_eq_str size "0" then ret tt else lift (Raise TypeError))) w
    = (set_file (outdir, "devinfo.h") devinfo_text w, r)).
  { destruct (py_iter doc) as [devices|e] eqn:Hit.
    - destruct (Hloop devices) as (r & Hr). exists r. intros w.
      unfold bind at 1. rewrite shared_header_run. now rewrite bind_lift_ok.
    - exists (Raise e). intros w. unfold bind at 1. now rewrite shared_header_run. }
  destruct doc as [| | | | |m]; try exact Hgen. now destruct (Hobj m).
Qed.

Lemma writes_only_generate_c_document (outdir : string) (doc : json) :
  writes_only (generate_c_document outdir doc).
Proof.
  assert (Hother : (forall m, doc <> JObj m) ->
                   writes_only (generate_c_document outdir doc)).
  { intros Hobj. destruct (generate_c_document_not_object outdir doc Hobj) as (r & H).
    exists [((outdir, "devinfo.h"), devinfo_text)], r. exact H. }
  destruct doc as [| | | | |m]; try (apply Hother; discriminate).
  apply writes_only_generate_c.
Qed.

(** The directory is there after [os.path.exists] and [os.makedirs]. *)
Lemma ensure_directory (outdir : string) (w : world) :
  (if os_path_exists outdir w then w else os_makedirs outdir w)
  = mkWorld ({[outdir]} ∪ dirs w) (files w) (stdout w).
Proof.
  unfold os_path_exists. destruct (bool_decide_reflect (outdir ∈ dirs w)) as [Hin|Hout].
  - destruct w as [ds fs out]; simpl in *. f_equal.
    symmetry. apply subseteq_union_1_L. now apply singleton_subseteq_l.
  - reflexivity.
Qed.

(** X12.  Called with two arguments, for an output directory named by one
    plain path component that is not the name of a file, the script makes
    sure the directory exists before it reads the document, and prints
    nothing.  When the document cannot be loaded, no file is written and the
    status is 1.  Otherwise the script does what the generator does in the
    world that has the directory, and exits with 0 or 1 as the generator
    completes or raises; a document that is not an object gets the shared
    header and no other file. *)
Theorem main_with_two_arguments (argv0 outdir filename : string) (w : world) :
  plain_dir outdir = true ->
  (forall dir, files w !! (dir, outdir) = None) ->
  dirs (fst (main argv0 [outdir; filename] w)) = {[outdir]} ∪ dirs w /\
  stdout (fst (main argv0 [outdir; filename] w)) = stdout w /\
  match json_load filename with
  | Raise _ =>
      files (fst (main argv0 [outdir; filename] w)) = files w /\
      snd (main argv0 [outdir; filename] w) = 1
  | Ok doc =>
      main argv0 [outdir; filename] w
      = (fst (generate_c_document outdir doc
                (mkWorld ({[outdir]} ∪ dirs w) (files w) (stdout w))),
         exit_status (snd (generate_c_document outdir doc
                             (mkWorld ({[outdir]} ∪ dirs w) (files w) (stdout w))))) /\
      ((forall m, doc <> JObj m) ->
       files (fst (main argv0 [outdir; filename] w))
       = <[(outdir, "devinfo.h") := devinfo_text]> (files w))
  end.
Proof.
  intros _ _. unfold main. simpl length. simpl negb. cbv iota. simpl nth.
  rewrite ensure_directory.
  set (ready := mkWorld ({[outdir]} ∪ dirs w) (files w) (stdout w)).
  destruct (json_load filename) as [doc|e]; simpl.
  - destruct (writes_only_generate_c_document outdir doc) as (log & r & H).
    rewrite !H. simpl. rewrite replay_dirs, replay_stdout.
    split; [reflexivity|]. split; [reflexivity|]. split; [reflexivity|].
    intros Hobj. destruct (generate_c_document_not_object outdir doc Hobj) as (r' & H').
    pose proof (H ready) as Hr. rewrite H' in Hr. injection Hr as <- _. reflexivity.
  - repeat split; reflexivity.
Qed.

(** X3.  Over a document whose device names are plain stems, a device named
    [devinfo] that is written out takes the place of the shared header: after
    a run that completes, [devinfo.h] holds the header of that device, with
    its descriptor, and no longer the structure definitions. *)
Theorem devinfo_device_overwrites_shared_header
        (outdir : string) (data : odict) (w w' : world) (dev size : json) :
  plain_names data = true ->
  generate_c outdir data w = (w', Ok tt) ->
  dict_get "devinfo" data = Some dev ->
  getitem_key dev "size" = Ok size ->
  size <> JStr "0" ->
  exists c,
    files w' !! (outdir, "devinfo.h") = Some c /\
    contains (descriptor_declaration "devinfo") c /\
    c <> devinfo_text.
Proof.
  intros _ Hrun Hd Hs Hne. rewrite generate_c_unfold in Hrun.
  pose proof (dict_get_in _ _ _ Hd) as Hin.
  pose proof (proj2 (is_emitted_iff _ _ _ _ Hd Hs) Hne) as Hem.
  destruct (loop_emitted _ _ _ _ _ _ _ Hrun Hin Hem Hd) as (c & Hc & Hfile).
  exists c. split; [exact Hfile|].
  destruct (getitem_key_ok_inv _ _ _ Hs) as (m & -> & _).
  apply device_body_ok_inv in Hc as (o2 & o3 & o4 & o5 & _ & H3 & _ & _ & ->).
  apply write_declaration_ok_inv in H3 as (address & size' & _ & _ & ->).
  split.
  - apply contains_app_r, contains_app_r, contains_app_l, declaration_contains.
  - intros Heq. apply (f_equal (String.get 1060)) in Heq.
    vm_compute in Heq. discriminate.
Qed.

Lemma write_irq_define_zero (dev : json) (i : nat) (irq : json) (buf : string) :
  py_ne_zero irq = false -> write_irq_define dev (i, irq) buf = (buf, Ok tt).
Proof. intros Hz. unfold write_irq_define. simpl. now rewrite Hz. Qed.

(** The ways the literal of a named slot can be missing. *)
Lemma write_irq_define_raise (m : odict) (i : nat) (irq : json) (e : exn) (buf : string) :
  py_ne_zero irq = true ->
  (dict_get "irqs_literal" m = None /\ e = KeyError) \/
  (exists lits, dict_get "irqs_literal" m = Some lits /\ getitem_idx lits i = Raise e) \/
  (exists lits v, dict_get "irqs_literal" m = Some lits /\
                  getitem_idx lits i = Ok v /\ fmt_d v = Raise e) ->
  write_irq_define (JObj m) (i, irq) buf = (buf, Raise e).
Proof.
  intros Hnz H. unfold write_irq_define. cbn [fst snd]. rewrite Hnz.
  destruct H as [[Hl ->]|[(lits & Hl & Hi)|(lits & v & Hl & Hi & Hf)]].
  - now rewrite (getitem_key_none _ _ Hl), bind_lift_raise.
  - now rewrite (getitem_key_some _ _ _ Hl), bind_lift_ok, Hi, bind_lift_raise.
  - now rewrite (getitem_key_some _ _ _ Hl), bind_lift_ok, Hi, bind_lift_ok, Hf,
      bind_lift_raise.
Qed.

Lemma irq_defines_loop_first_named
      (m : odict) (zeros : list json) (irq : json) (rest : list json)
      (n : nat) (e : exn) (buf : string) :
  Forall (fun x => py_ne_zero x = false) zeros ->
  write_irq_define (JObj m) ((n + length zeros)%nat, irq) buf = (buf, Raise e) ->
  for_each (enumerate_from n (zeros ++ irq :: rest)) (write_irq_define (JObj m)) buf
  = (buf, Raise e).
Proof.
  intros Hz; revert n; induction Hz as [|z zeros Hzero _ IH]; intros n Hr.
  - simpl in *. rewrite Nat.add_0_r in Hr. unfold bind. now rewrite Hr.
  - simpl. unfold bind. rewrite (write_irq_define_zero _ _ _ _ Hzero).
    apply IH. simpl in Hr. now replace (S n + length zeros)%nat
                               with (n + S (length zeros))%nat by lia.
Qed.

(** X6.  When the first IRQ slot that is not 0 has no usable literal --
    [irqs_literal] is absent (key error), has no entry at the index of the
    slot (index error), or has there something that is not a number (type
    error) -- the header is left holding the prologue only: no macro and no
    descriptor, and the exception is raised. *)
Theorem named_slot_without_literal
        (device g : string) (m : odict) (zeros : list json) (irq : json)
        (rest : list json) (e : exn) :
  dict_get "irqs" m = Some (JArr (zeros ++ irq :: rest)) ->
  Forall (fun x => py_ne_zero x = false) zeros ->
  py_ne_zero irq = true ->
  (dict_get "irqs_literal" m = None /\ e = KeyError) \/
  (exists lits, dict_get "irqs_literal" m = Some lits /\
                getitem_idx lits (length zeros) = Raise e) \/
  (exists lits v, dict_get "irqs_literal" m = Some lits /\
                  getitem_idx lits (length zeros) = Ok v /\ fmt_d v = Raise e) ->
  device_body device g (JObj m) "" = (prologue_text g, Raise e).
Proof.
  intros Hi Hz Hnz Hlit.
  rewrite (device_body_raise_defines device g (JObj m) "" e).
  - now rewrite app_nil_r_s.
  - unfold write_irq_defines.
    rewrite (getitem_key_some _ _ _ Hi), bind_lift_ok. simpl py_iter.
    rewrite bind_lift_ok. unfold enumerate.
    apply irq_defines_loop_first_named; [assumption|].
    now apply write_irq_define_raise.
Qed.

(** X7.  When [irqs] is not something a loop can run over (null, a boolean or
    a number), the type error is raised before any macro: the header is left
    holding the prologue only. *)
Theorem irqs_not_a_sequence (device g : string) (m : odict) (irqs : json) :
  dict_get "irqs" m = Some irqs ->
  irqs = JNull \/ (exists b, irqs = JBool b) \/ (exists z, irqs = JNum z) ->
  device_body device g (JObj m) "" = (prologue_text g, Raise TypeError).
Proof.
  intros Hi Hkind.
  rewrite (device_body_raise_defines device g (JObj m) "" TypeError).
  - now rewrite app_nil_r_s.
  - unfold write_irq_defines. rewrite (getitem_key_some _ _ _ Hi), bind_lift_ok.
    destruct Hkind as [->|[[b ->]|[z ->]]]; reflexivity.
Qed.

(** A [gpios] list longer than four pairs is neither cut nor padded by a
    completed [with] block. *)
Lemma body_gpios_beyond_four
        (device guard : string) (m : odict) (pairs : list json) (c : string) :
  device_body device guard (JObj m) "" = (c, Ok tt) ->
  dict_get "gpios" m = Some (JArr pairs) ->
  (4 < length pairs)%nat ->
  exists before pps,
    Forall2 gpio_fields pairs pps /\
    c = before +:+ gpios_text (map gpio_line pps) +:+ closing_text /\
    length (map gpio_line pps) = length pairs.
Proof.
  intros Hc Hg Hk.
  apply device_body_ok_inv in Hc as (o2 & o3 & o4 & o5 & _ & _ & _ & H5 & ->).
  destruct (for_each pairs write_gpio "") as [o r] eqn:Hl.
  rewrite (write_gpios_present _ _ _ _ Hg Hl) in H5.
  destruct r as [[]|e]; [|discriminate]. injection H5 as <-.
  destruct (gpio_loop_ok _ _ Hl) as (pps & HF & ->).
  exists (prologue_text guard +:+ o2 +:+ o3 +:+ o4), pps.
  split; [assumption|]. split.
  - replace (4 - length pairs)%nat with 0%nat by lia.
    unfold gpios_text. simpl flat. now rewrite !app_nil_r_s, !app_assoc_s.
  - rewrite length_map. symmetry. eapply Forall2_same_length, HF.
Qed.

(** X8.  A [gpios] list longer than four pairs is neither cut nor padded:
    after a run that completes over a document whose device names are plain
    stems, the file of a device written out with such a list holds every
    pair, in source order. *)
Theorem gpios_beyond_four_not_truncated
        (outdir : string) (data : odict) (w w' : world)
        (d : string) (m : odict) (size : json) (pairs : list json) :
  plain_names data = true ->
  generate_c outdir data w = (w', Ok tt) ->
  dict_get d data = Some (JObj m) ->
  dict_get "size" m = Some size ->
  size <> JStr "0" ->
  dict_get "gpios" m = Some (JArr pairs) ->
  (4 < length pairs)%nat ->
  exists c before pps,
    files w' !! (outdir, d +:+ ".h") = Some c /\
    Forall2 gpio_fields pairs pps /\
    c = before +:+ gpios_text (map gpio_line pps) +:+ closing_text /\
    length (map gpio_line pps) = length pairs.
Proof.
  intros _ Hrun Hd Hs Hne Hg Hk.
  destruct (emitted_file _ _ _ _ _ _ _ Hrun Hd Hs Hne) as (c & Hc & Hfile).
  destruct (body_gpios_beyond_four _ _ _ _ _ Hc Hg Hk) as (before & pps & HF & Hshape & Hlen).
  exists c, before, pps. repeat split; assumption.
Qed.

Lemma gpio_fields_ok (gpio : json) (pp : json * json) :
  gpio_fields gpio pp -> gpio_ok gpio = true.
Proof. intros [Hport Hpin]. unfold gpio_ok. now rewrite Hport, Hpin. Qed.

Lemma gpio_ok_fields (gpio : json) :
  gpio_ok gpio = true -> exists pp, gpio_fields gpio pp.
Proof.
  unfold gpio_ok, gpio_fields.
  destruct (getitem_key gpio "port") as [port|]; [|discriminate].
  destruct (getitem_key gpio "pin") as [pin|]; [|discriminate].
  intros _. now exists (port, pin).
Qed.

(** X9.  A [gpios] list with an entry that lacks its port or its pin (or is
    not an object) never gives a complete header: whatever the other fields
    are, writing the device raises. *)
Theorem malformed_gpio_entry_raises
        (device g : string) (m : odict) (pairs : list json) (gpio : json) :
  dict_get "gpios" m = Some (JArr pairs) ->
  In gpio pairs ->
  gpio_ok gpio = false ->
  exists c e, device_body device g (JObj m) "" = (c, Raise e).
Proof.
  intros Hg Hin Hbad.
  destruct (device_body device g (JObj m) "") as [c [[]|e]] eqn:Hc; [|eauto].
  exfalso.
  apply device_body_ok_inv in Hc as (o2 & o3 & o4 & o5 & _ & _ & _ & H5 & _).
  destruct (for_each pairs write_gpio "") as [o r] eqn:Hl.
  rewrite (write_gpios_present _ _ _ _ Hg Hl) in H5.
  destruct r as [[]|e]; [|discriminate].
  destruct (gpio_loop_ok _ _ Hl) as (pps & HF & _).
  clear -HF Hin Hbad. induction HF as [|x pp xs pps Hx _ IH]; [contradiction|].
  destruct Hin as [->|Hin]; [|now apply IH].
  apply gpio_fields_ok in Hx. congruence.
Qed.

(** X11.  Nothing is cleaned up when a run fails.  Take a document whose
    device names, up to the device [d], are plain stems.  If the document up
    to [d] raises while the document before [d] completes, then the whole
    document raises the same way, and the file of every device before [d],
    as well as the shared header when [d] is not named [devinfo], is as the
    devices before [d] left it. *)
Theorem failure_keeps_earlier_files
        (outdir : string) (pre post : odict) (d : string) (dev : json)
        (w w1 w2 : world) (e : exn) :
  plain_names pre = true ->
  plain_stem d = true ->
  ~ In d (map fst pre) ->
  generate_c outdir pre w = (w1, Ok tt) ->
  generate_c outdir (pre ++ [(d, dev)]) w = (w2, Raise e) ->
  generate_c outdir (pre ++ (d, dev) :: post) w = (w2, Raise e) /\
  (forall d', In d' (map fst pre) ->
     files w2 !! (outdir, d' +:+ ".h") = files w1 !! (outdir, d' +:+ ".h")) /\
  (d <> "devinfo" ->
     files w2 !! (outdir, "devinfo.h") = files w1 !! (outdir, "devinfo.h")).
Proof.
  intros _ _ Hd Hpre Hfail.
  rewrite (generate_c_prefix _ _ _ _ _ Hpre) in Hfail.
  apply for_each_cons_inv in Hfail as [(e' & He & [= <-])|(w' & _ & Hnil)];
    [|discriminate].
  rewrite (emit_device_ext _ _ [(d, dev)]) in He.
  2: { rewrite (dict_get_here _ [] _ _ Hd). symmetry. apply dict_get_single. }
  split; [|split].
  - now apply (generate_c_abort _ _ _ _ _ _ _ _ _ Hd Hpre).
  - intros d' Hd'. apply (emit_device_frame _ _ _ _ _ _ _ He).
    intros Heq. apply (device_file_inj outdir d' d) in Heq. congruence.
  - intros Hname. apply (emit_device_frame _ _ _ _ _ _ _ He).
    now apply device_file_not_shared.
Qed.

Lemma write_irq_define_literal_ok (m : odict) (lits : json) (slot : nat * json) :
  dict_get "irqs_literal" m = Some lits ->
  literal_ok lits slot = true ->
  exists o, write_irq_define (JObj m) slot "" = (o, Ok tt).
Proof.
  intros Hl. unfold literal_ok, write_irq_define.
  destruct (py_ne_zero (snd slot)); simpl negb; simpl orb; [|intros _; now eexists].
  rewrite (getitem_key_some _ _ _ Hl), bind_lift_ok.
  destruct (getitem_idx lits (fst slot)) as [v|]; [|discriminate].
  rewrite bind_lift_ok.
  destruct (fmt_d v) as [text|]; [|discriminate].
  rewrite bind_lift_ok, write_run. intros _. now eexists.
Qed.

Lemma irq_defines_loop_literals (m : odict) (lits : json) (slots : list (nat * json)) :
  dict_get "irqs_literal" m = Some lits ->
  forallb (literal_ok lits) slots = true ->
  exists o, for_each slots (write_irq_define (JObj m)) "" = (o, Ok tt).
Proof.
  intros Hl. induction slots as [|slot slots IH]; simpl; intros H.
  - now exists "".
  - apply andb_true_iff in H as [Hslot Hrest].
    destruct (write_irq_define_literal_ok _ _ _ Hl Hslot) as (o1 & H1).
    destruct (IH Hrest) as (o2 & H2).
    exists ("" +:+ o1 +:+ o2).
    apply (bind_run _ _ tt); [auto 10 with appends | exact H1 | exact H2].
Qed.

Lemma forallb_zero_slots (items : list json) :
  forallb (fun irq => negb (py_ne_zero irq)) items = true ->
  Forall (fun irq => py_ne_zero irq = false) items.
Proof.
  induction items as [|irq items IH]; simpl; intros H; constructor;
    apply andb_true_iff in H as [H1 H2].
  - now apply negb_true_iff.
  - now apply IH.
Qed.

Lemma forallb_gpio_ok (pairs : list json) :
  forallb gpio_ok pairs = true -> exists pps, Forall2 gpio_fields pairs pps.
Proof.
  induction pairs as [|gpio pairs IH]; simpl; intros H.
  - exists []. constructor.
  - apply andb_true_iff in H as [H1 H2].
    destruct (gpio_ok_fields _ H1) as (pp & Hpp). destruct (IH H2) as (pps & HF).
    exists (pp :: pps). now constructor.
Qed.

(** A well-formed descriptor that has a size gives a complete header. *)
Lemma well_formed_body (device g : string) (m : odict) (size : json) :
  well_formed m = true ->
  dict_get "size" m = Some size ->
  exists c, device_body device g (JObj m) "" = (c, Ok tt).
Proof.
  unfold well_formed. intros Hwf Hs.
  destruct (dict_get "address" m) as [address|] eqn:Ha; [|discriminate].
  destruct (dict_get "irqs" m) as [[| | | |[|irq0 rest]|]|] eqn:Hi; try discriminate.
  apply andb_true_iff in Hwf as [Hirqs Hgpios].
  assert (H2 : exists o2, write_irq_defines (JObj m) "" = (o2, Ok tt)).
  { apply orb_true_iff in Hirqs as [Hz|Hlits].
    - exists "". apply (write_irq_defines_zero _ _ Hi). now apply forallb_zero_slots.
    - destruct (dict_get "irqs_literal" m) as [lits|] eqn:Hl; [|discriminate].
      unfold write_irq_defines.
      rewrite (getitem_key_some _ _ _ Hi), bind_lift_ok. simpl py_iter.
      rewrite bind_lift_ok. now apply (irq_defines_loop_literals _ lits). }
  assert (H5 : exists o5, write_gpios (JObj m) "" = (o5, Ok tt)).
  { destruct (dict_get "gpios" m) as [[| | | |pairs|]|] eqn:Hg; try discriminate.
    - destruct (forallb_gpio_ok _ Hgpios) as (pps & HF). eexists.
      rewrite (write_gpios_present _ _ _ _ Hg (gpio_loop_run _ _ HF)). reflexivity.
    - eexists. apply (write_gpios_absent _ Hg). }
  destruct H2 as (o2 & H2). destruct H5 as (o5 & H5). eexists.
  apply (device_body_run device g (JObj m) _ _ _ _ H2
           (write_declaration_run _ _ _ _ Ha Hs) (write_irqs_run _ _ _ Hi) H5).
Qed.

Lemma for_each_all_ok {S A} (l : list A) (body : A -> M S unit) :
  (forall x s, In x l -> snd (body x s) = Ok tt) ->
  forall s, snd (for_each l body s) = Ok tt.
Proof.
  induction l as [|x l IH]; intros H s; [reflexivity|].
  simpl. unfold bind. pose proof (H x s (or_introl eq_refl)) as Hx.
  destruct (body x s) as [s1 [[]|e]]; [|discriminate].
  apply IH. intros y s0 Hy. apply H. now right.
Qed.

(** X13.  A document whose device names are plain stems and in which every
    device is an object with a size, and is either unmappable (size ["0"]) or
    well formed, is handled without failure: the generator completes, and
    the script, given an output directory named by one plain path component
    that is not the name of a file, exits with status 0. *)
Theorem well_formed_document_completes (outdir : string) (data : odict) (w : world) :
  document_ok data = true ->
  plain_names data = true ->
  snd (generate_c outdir data w) = Ok tt /\
  (forall argv0 filename w0,
     plain_dir outdir = true ->
     (forall dir, files w0 !! (dir, outdir) = None) ->
     json_load filename = Ok (JObj data) ->
     snd (main argv0 [outdir; filename] w0) = 0).
Proof.
  intros Hok _.
  assert (Hrun : forall w', snd (generate_c outdir data w') = Ok tt).
  { intros w'. rewrite generate_c_unfold. apply for_each_all_ok.
    intros d s Hd. destruct (dict_get_in_some _ _ Hd) as (dev & Hdev).
    pose proof (dict_get_some_in _ _ _ Hdev) as Hin.
    unfold document_ok in Hok. rewrite forallb_forall in Hok.
    specialize (Hok _ Hin). simpl in Hok.
    destruct dev as [| | | | |m]; try discriminate.
    destruct (dict_get "size" m) as [size|] eqn:Hs; [|discriminate].
    destruct (py_eq_str size "0") eqn:Hz.
    - apply py_eq_str_true in Hz. subst size.
      now rewrite (emit_device_size_zero _ _ _ _ s Hdev Hs).
    - simpl in Hok. apply py_eq_str_false in Hz.
      rewrite (emit_device_emitted _ _ _ _ _ s Hdev (getitem_key_some _ _ _ Hs) Hz).
      destruct (well_formed_body d (device_guard d) m size Hok Hs) as (c & ->).
      reflexivity. }
  split; [apply Hrun|].
  intros argv0 filename w0 _ _ Hload.
  now rewrite (main_status argv0 outdir filename data w w0 Hload), Hrun.
Qed.

Lemma writes_only_keeps {A} (c : M world A) (w : world) (p : string * string) :
  writes_only c ->
  is_Some (files w !! p) -> is_Some (files (fst (c w)) !! p).
Proof.
  intros (log & r & H) Hp. rewrite H. simpl. rewrite replay_lookup.
  destruct (last_written log p); [eauto | assumption].
Qed.

(** X14.  After a run that completes over a document whose device names are
    plain stems, the files [<name>.h] present, for plain stems [name], are
    exactly those that were there before, the shared header, and one for
    each device of the document that is written out. *)
Theorem files_after_completed_run
        (outdir : string) (data : odict) (w w' : world) (name : string) :
  plain_names data = true ->
  plain_stem name = true ->
  generate_c outdir data w = (w', Ok tt) ->
  is_Some (files w' !! (outdir, name +:+ ".h")) <->
  is_Some (files w !! (outdir, name +:+ ".h")) \/
  name = "devinfo" \/
  (In name (map fst data) /\ is_emitted data name = true).
Proof.
  intros _ _ Hrun. pose proof Hrun as Hloop. rewrite generate_c_unfold in Hloop.
  set (w0 := set_file (outdir, "devinfo.h") devinfo_text w) in *.
  change (outdir, name +:+ ".h") with (device_file outdir name).
  assert (Hkeep : forall q, is_Some (files w0 !! q) -> is_Some (files w' !! q)).
  { intros q Hq.
    pose proof (writes_only_keeps _ w0 q
                  (writes_only_for_each (map fst data) (emit_device outdir data)
                     (writes_only_emit_device outdir data)) Hq) as H.
    now rewrite Hloop in H. }
  split.
  - intros Hp.
    destruct (decide (name = "devinfo")) as [->|Hshared]; [now right; left|].
    destruct (in_dec string_dec name (map fst data)) as [Hin|Hout];
      [destruct (is_emitted data name) eqn:Hem; [now right; right|]|];
      left; rewrite (loop_frame _ _ _ _ _ _ _ Hloop) in Hp;
      try (subst w0; unfold set_file in Hp; simpl in Hp;
           now rewrite lookup_insert_ne in Hp by now apply device_file_not_shared);
      intros d Hd Hemd Heq; apply device_file_inj in Heq; subst d; congruence.
  - intros [Hp|[->|(Hd & Hem)]].
    + apply Hkeep. subst w0. unfold set_file; simpl.
      destruct (decide ((outdir, "devinfo.h") = device_file outdir name)) as [->|Hne].
      * rewrite lookup_insert_eq. eauto.
      * now rewrite lookup_insert_ne.
    + apply Hkeep. subst w0. unfold set_file; simpl.
      change (device_file outdir "devinfo") with (outdir, "devinfo.h").
      rewrite lookup_insert_eq. eauto.
    + destruct (is_emitted_true _ _ Hem) as (dev & size & Hdev & _ & _).
      destruct (loop_emitted _ _ _ _ _ _ _ Hloop Hd Hem Hdev) as (c & _ & Hfile).
      rewrite Hfile. eauto.
Qed.

End Python.

(** ** The claims at concrete documents *)






(** C6: in [no_irqs_doc] the device [usart2] is mappable and has no [irqs];
    [dma1] comes before it and [usart1] after it. *)
Lemma missing_field_aborts_run_witness :
  plain_names [("dma1", JObj dma1_fields)] = true /\
  plain_stem "usart2" = true /\
  ~ In "usart2" (map fst [("dma1", JObj dma1_fields)]) /\
  generate_c no_container_str "out" [("dma1", JObj dma1_fields)] empty_world
  = (mkWorld ∅ {[ ("out", "devinfo.h") := devinfo_text ]} "", Ok tt) /\
  (exists e w2,
    generate_c no_container_str "out"
      ([("dma1", JObj dma1_fields)] ++ ("usart2", JObj no_irqs_fields)
         :: [("usart1", JObj usart1_fields)]) empty_world = (w2, Raise e) /\
    generate_c no_container_str "out"
      ([("dma1", JObj dma1_fields)] ++ [("usart2", JObj no_irqs_fields)]) empty_world
    = (w2, Raise e) /\
    (forall argv0 filename w0,
       load_doc no_irqs_doc filename
       = Ok (JObj ([("dma1", JObj dma1_fields)] ++ ("usart2", JObj no_irqs_fields)
                     :: [("usart1", JObj usart1_fields)])) ->
       snd (main no_container_str (load_doc no_irqs_doc) argv0 ["out"; filename] w0) = 1) /\
    (dict_get "size" no_irqs_fields = None ->
     w2 = mkWorld ∅ {[ ("out", "devinfo.h") := devinfo_text ]} "") /\
    (forall size, dict_get "size" no_irqs_fields = Some size -> size <> JStr "0" ->
                  dict_get "irqs" no_irqs_fields = None ->
                  e = KeyError /\
                  w2 = set_file ("out", "usart2" +:+ ".h")
                                (prologue_text (device_guard "usart2"))
                                (mkWorld ∅ {[ ("out", "devinfo.h") := devinfo_text ]} ""))) /\
  (forall skipped,
     dict_get "size" skipped = Some (JStr "0") ->
     generate_c no_container_str "out"
       ([("dma1", JObj dma1_fields)] ++ [("usart2", JObj skipped)]) empty_world
     = (mkWorld ∅ {[ ("out", "devinfo.h") := devinfo_text ]} "", Ok tt)).
Proof.
  assert (Hp : plain_names [("dma1", JObj dma1_fields)] = true) by reflexivity.
  assert (Hs : plain_stem "usart2" = true) by reflexivity.
  assert (Hd : ~ In "usart2" (map fst [("dma1", JObj dma1_fields)])).
  { simpl. intros [H|[]]. discriminate. }
  assert (Hpre : generate_c no_container_str "out" [("dma1", JObj dma1_fields)] empty_world
                 = (mkWorld ∅ {[ ("out", "devinfo.h") := devinfo_text ]} "", Ok tt))
    by (vm_compute; reflexivity).
  split; [exact Hp|]. split; [exact Hs|]. split; [exact Hd|]. split; [exact Hpre|].
  apply (missing_field_aborts_run no_container_str (load_doc no_irqs_doc) "out"
           [("dma1", JObj dma1_fields)] [("usart1", JObj usart1_fields)]
           "usart2" no_irqs_fields empty_world _ Hp Hs Hd Hpre).
  right. exists (JStr "0x400"). split; [reflexivity|]. split; [discriminate|].
  left. reflexivity.
Defined.

(** C6 as stated fails for a device that lacks [irqs] (and [address]) and has
    the size ["0"]: the device is skipped, the run completes and the script
    exits with status 0. *)
Lemma skipped_device_counterexample :
  dict_get "irqs" [ ("size", JStr "0") ] = None /\
  dict_get "address" [ ("size", JStr "0") ] = None /\
  generate_c no_container_str "out" size_only_doc empty_world
  = (mkWorld ∅ {[ ("out", "devinfo.h") := devinfo_text ]} "", Ok tt) /\
  main no_container_str (load_doc size_only_doc) "devheader.py" ["out"; "layout.json"]
       empty_world
  = (mkWorld {[ "out" ]} {[ ("out", "devinfo.h") := devinfo_text ]} "", 0).
Proof.
  split; [reflexivity|]. split; [reflexivity|].
  split; vm_compute; reflexivity.
Qed.



(** C8: the script called with one argument. *)
Lemma usage_error_touches_nothing_witness :
  length ["out"] <> 2%nat /\
  exists w',
    main no_container_str (load_doc scenario_doc) "devheader.py" ["out"] empty_world
    = (w', 1) /\
    dirs w' = dirs empty_world /\
    files w' = files empty_world /\
    stdout w' = stdout empty_world +:+ "usage:  " +:+ "devheader.py"
                +:+ " <outdir> <filename.json>" +:+ LF +:+ LF.
Proof.
  assert (H : length ["out"] <> 2%nat) by (simpl; lia).
  split; [exact H|].
  apply (usage_error_touches_nothing no_container_str (load_doc scenario_doc)
           "devheader.py" ["out"] empty_world H).
Defined.



(** ** The further properties at concrete documents *)

(** X1: two unmappable devices. *)
Lemma only_shared_header_when_all_skipped_witness :
  Forall (fun kv => exists m, snd kv = JObj m /\ dict_get "size" m = Some (JStr "0"))
         [("dma1", JObj dma1_fields); ("devinfo", JObj devinfo_fields)] /\
  generate_c no_container_str "out"
    [("dma1", JObj dma1_fields); ("devinfo", JObj devinfo_fields)] empty_world
  = (set_file ("out", "devinfo.h") devinfo_text empty_world, Ok tt).
Proof.
  assert (H : Forall (fun kv => exists m, snd kv = JObj m
                                          /\ dict_get "size" m = Some (JStr "0"))
                     [("dma1", JObj dma1_fields); ("devinfo", JObj devinfo_fields)]).
  { repeat constructor; eexists; split; reflexivity. }
  split; [exact H|].
  apply (only_shared_header_when_all_skipped no_container_str "out" _ empty_world H).
Defined.

(** X2: a run that raises at its second device. *)
Lemma shared_header_always_written_witness :
  plain_names no_irqs_doc = true /\
  is_emitted no_irqs_doc "devinfo" = false /\
  snd (generate_c no_container_str "out" no_irqs_doc empty_world) = Raise KeyError /\
  files (fst (generate_c no_container_str "out" no_irqs_doc empty_world))
    !! ("out", "devinfo.h") = Some devinfo_text.
Proof.
  assert (Hp : plain_names no_irqs_doc = true) by reflexivity.
  split; [exact Hp|]. split; [reflexivity|]. split; [vm_compute; reflexivity|].
  apply (shared_header_always_written no_container_str "out" no_irqs_doc empty_world Hp).
  reflexivity.
Defined.

(** X3: a mappable device named [devinfo]. *)
Lemma devinfo_device_overwrites_shared_header_witness :
  plain_names devinfo_mapped_doc = true /\
  generate_c no_container_str "out" devinfo_mapped_doc empty_world
  = (fst (generate_c no_container_str "out" devinfo_mapped_doc empty_world), Ok tt) /\
  dict_get "devinfo" devinfo_mapped_doc = Some (JObj quiet_fields) /\
  exists c,
    files (fst (generate_c no_container_str "out" devinfo_mapped_doc empty_world))
      !! ("out", "devinfo.h") = Some c /\
    contains (descriptor_declaration "devinfo") c /\
    c <> devinfo_text.
Proof.
  assert (Hp : plain_names devinfo_mapped_doc = true) by reflexivity.
  assert (H : generate_c no_container_str "out" devinfo_mapped_doc empty_world
              = (fst (generate_c no_container_str "out" devinfo_mapped_doc empty_world),
                 Ok tt)) by (vm_compute; reflexivity).
  split; [exact Hp|]. split; [exact H|]. split; [reflexivity|].
  apply (devinfo_device_overwrites_shared_header no_container_str "out"
           devinfo_mapped_doc empty_world _ (JObj quiet_fields) (JStr "0x400") Hp H);
    [reflexivity | reflexivity | discriminate].
Defined.

(** X4: a run that raises at its second device; the file of the skipped
    device [dma1]. *)
Lemma generate_c_frame_witness :
  plain_names no_irqs_doc = true /\
  dirs (fst (generate_c no_container_str "out" no_irqs_doc empty_world)) = dirs empty_world /\
  stdout (fst (generate_c no_container_str "out" no_irqs_doc empty_world))
  = stdout empty_world /\
  (forall p, is_Some (files empty_world !! p) ->
             is_Some (files (fst (generate_c no_container_str "out" no_irqs_doc
                                    empty_world)) !! p)) /\
  (forall name,
     plain_stem name = true ->
     name <> "devinfo" ->
     ~ (In name (map fst no_irqs_doc) /\ is_emitted no_irqs_doc name = true) ->
     files (fst (generate_c no_container_str "out" no_irqs_doc empty_world))
       !! ("out", name +:+ ".h")
     = files empty_world !! ("out", name +:+ ".h")).
Proof.
  assert (Hp : plain_names no_irqs_doc = true) by reflexivity.
  split; [exact Hp|].
  apply (generate_c_frame no_container_str "out" no_irqs_doc empty_world Hp).
Defined.

(** X5: a device whose size is the number 0. *)
Lemma skip_rule_is_string_equality_witness :
  plain_stem "dma1" = true /\
  dict_get "dma1" [("dma1", JObj numeric_zero_fields)] = Some (JObj numeric_zero_fields) /\
  (dict_get "size" numeric_zero_fields = Some (JStr "0") ->
   emit_device no_container_str "out" [("dma1", JObj numeric_zero_fields)] "dma1" empty_world
   = (empty_world, Ok tt)) /\
  (forall size,
     dict_get "size" numeric_zero_fields = Some size -> size <> JStr "0" ->
     exists rest r,
       emit_device no_container_str "out" [("dma1", JObj numeric_zero_fields)] "dma1"
                   empty_world
       = (set_file ("out", "dma1" +:+ ".h")
                   (prologue_text (device_guard "dma1") +:+ rest) empty_world, r)) /\
  (dict_get "size" numeric_zero_fields = Some (JNum 0) ->
   is_Some (files (fst (emit_device no_container_str "out"
                          [("dma1", JObj numeric_zero_fields)] "dma1" empty_world))
              !! ("out", "dma1" +:+ ".h"))).
Proof.
  assert (Hs : plain_stem "dma1" = true) by reflexivity.
  assert (H : dict_get "dma1" [("dma1", JObj numeric_zero_fields)]
              = Some (JObj numeric_zero_fields)) by reflexivity.
  split; [exact Hs|]. split; [exact H|].
  apply (skip_rule_is_string_equality no_container_str "out" _ "dma1"
           numeric_zero_fields empty_world Hs H).
Defined.

(** X6: the second slot is named and [irqs_literal] is absent. *)
Lemma named_slot_without_literal_witness :
  dict_get "irqs" named_irq_fields
  = Some (JArr ([JNum 0] ++ JStr "USART3_IRQ" :: [JNum 0; JNum 0])) /\
  dict_get "irqs_literal" named_irq_fields = None /\
  device_body no_container_str "usart3" "USART3_H_" (JObj named_irq_fields) ""
  = (prologue_text "USART3_H_", Raise KeyError).
Proof.
  split; [reflexivity|]. split; [reflexivity|].
  apply (named_slot_without_literal no_container_str "usart3" "USART3_H_"
           named_irq_fields [JNum 0] (JStr "USART3_IRQ") [JNum 0; JNum 0] KeyError).
  - reflexivity.
  - repeat constructor.
  - reflexivity.
  - left. split; reflexivity.
Defined.

(** X7: [irqs] given as the number 0. *)
Lemma irqs_not_a_sequence_witness :
  dict_get "irqs" scalar_irqs_fields = Some (JNum 0) /\
  device_body no_container_str "usart3" "USART3_H_" (JObj scalar_irqs_fields) ""
  = (prologue_text "USART3_H_", Raise TypeError).
Proof.
  split; [reflexivity|].
  apply (irqs_not_a_sequence no_container_str "usart3" "USART3_H_"
           scalar_irqs_fields (JNum 0)); [reflexivity|].
  right; right. now exists 0.
Defined.

(** X8: a document with a device that has five GPIO pairs. *)
Lemma gpios_beyond_four_not_truncated_witness :
  plain_names [("tim1", JObj five_gpio_fields)] = true /\
  generate_c no_container_str "out" [("tim1", JObj five_gpio_fields)] empty_world
  = (fst (generate_c no_container_str "out" [("tim1", JObj five_gpio_fields)]
            empty_world), Ok tt) /\
  exists c before pps,
    files (fst (generate_c no_container_str "out" [("tim1", JObj five_gpio_fields)]
                  empty_world)) !! ("out", "tim1" +:+ ".h") = Some c /\
    Forall2 gpio_fields
            [ JObj [("port", JNum 3); ("pin", JNum 2)];
              JObj [("port", JNum 2); ("pin", JNum 8)];
              JObj [("port", JNum 2); ("pin", JNum 9)];
              JObj [("port", JNum 2); ("pin", JNum 10)];
              JObj [("port", JNum 2); ("pin", JNum 11)] ] pps /\
    c = before +:+ gpios_text (map (gpio_line no_container_str) pps) +:+ closing_text /\
    length (map (gpio_line no_container_str) pps) = 5%nat.
Proof.
  assert (Hp : plain_names [("tim1", JObj five_gpio_fields)] = true) by reflexivity.
  assert (H : generate_c no_container_str "out" [("tim1", JObj five_gpio_fields)]
                empty_world
              = (fst (generate_c no_container_str "out" [("tim1", JObj five_gpio_fields)]
                        empty_world), Ok tt))
    by (vm_compute; reflexivity).
  split; [exact Hp|]. split; [exact H|].
  apply (gpios_beyond_four_not_truncated no_container_str "out"
           [("tim1", JObj five_gpio_fields)] empty_world _ "tim1" five_gpio_fields
           (JStr "0x400")
           [ JObj [("port", JNum 3); ("pin", JNum 2)];
             JObj [("port", JNum 2); ("pin", JNum 8)];
             JObj [("port", JNum 2); ("pin", JNum 9)];
             JObj [("port", JNum 2); ("pin", JNum 10)];
             JObj [("port", JNum 2); ("pin", JNum 11)] ] Hp H);
    [reflexivity | reflexivity | discriminate | reflexivity | simpl; lia].
Defined.

(** X9: the second GPIO entry has no pin. *)
Lemma malformed_gpio_entry_raises_witness :
  gpio_ok (JObj [("port", JNum 1)]) = false /\
  exists c e,
    device_body no_container_str "usart1" "USART1_H_" (JObj bad_gpio_fields) ""
    = (c, Raise e).
Proof.
  split; [reflexivity|].
  apply (malformed_gpio_entry_raises no_container_str "usart1" "USART1_H_"
           bad_gpio_fields
           [ JObj [("port", JNum 1); ("pin", JNum 9)]; JObj [("port", JNum 1)] ]
           (JObj [("port", JNum 1)])).
  - reflexivity.
  - right; left; reflexivity.
  - reflexivity.
Defined.

(** X10: a device described by a string. *)
Lemma descriptor_not_an_object_witness :
  dict_get "usart1" [("usart1", JStr "0x400")] = Some (JStr "0x400") /\
  emit_device no_container_str "out" [("usart1", JStr "0x400")] "usart1" empty_world
  = (empty_world, Raise TypeError).
Proof.
  split; [reflexivity|].
  apply (descriptor_not_an_object no_container_str "out" _ "usart1" (JStr "0x400")
           empty_world); [reflexivity | discriminate].
Defined.

(** X11: after the scenario, a device without [irqs], then one more device. *)
Lemma failure_keeps_earlier_files_witness :
  plain_names scenario_doc = true /\
  plain_stem "usart2" = true /\
  generate_c no_container_str "out" scenario_doc empty_world
  = (fst (generate_c no_container_str "out" scenario_doc empty_world), Ok tt) /\
  generate_c no_container_str "out"
    (scenario_doc ++ [("usart2", JObj no_irqs_fields)]) empty_world
  = (fst (generate_c no_container_str "out"
            (scenario_doc ++ [("usart2", JObj no_irqs_fields)]) empty_world),
     Raise KeyError) /\
  generate_c no_container_str "out"
    (scenario_doc ++ ("usart2", JObj no_irqs_fields) :: [("crc", JObj quiet_fields)])
    empty_world
  = (fst (generate_c no_container_str "out"
            (scenario_doc ++ [("usart2", JObj no_irqs_fields)]) empty_world),
     Raise KeyError) /\
  (forall d', In d' (map fst scenario_doc) ->
     files (fst (generate_c no_container_str "out"
                   (scenario_doc ++ [("usart2", JObj no_irqs_fields)]) empty_world))
       !! ("out", d' +:+ ".h")
     = files (fst (generate_c no_container_str "out" scenario_doc empty_world))
         !! ("out", d' +:+ ".h")) /\
  ("usart2" <> "devinfo" ->
     files (fst (generate_c no_container_str "out"
                   (scenario_doc ++ [("usart2", JObj no_irqs_fields)]) empty_world))
       !! ("out", "devinfo.h")
     = files (fst (generate_c no_container_str "out" scenario_doc empty_world))
         !! ("out", "devinfo.h")).
Proof.
  assert (Hp : plain_names scenario_doc = true) by reflexivity.
  assert (Hs : plain_stem "usart2" = true) by reflexivity.
  assert (Hd : ~ In "usart2" (map fst scenario_doc)).
  { simpl. intros [H|[H|[]]]; discriminate. }
  assert (Hpre : generate_c no_container_str "out" scenario_doc empty_world
                 = (fst (generate_c no_container_str "out" scenario_doc empty_world), Ok tt))
    by (vm_compute; reflexivity).
  assert (Hfail : generate_c no_container_str "out"
                    (scenario_doc ++ [("usart2", JObj no_irqs_fields)]) empty_world
                  = (fst (generate_c no_container_str "out"
                            (scenario_doc ++ [("usart2", JObj no_irqs_fields)])
                            empty_world), Raise KeyError))
    by (vm_compute; reflexivity).
  split; [exact Hp|]. split; [exact Hs|]. split; [exact Hpre|]. split; [exact Hfail|].
  apply (failure_keeps_earlier_files no_container_str "out" scenario_doc
           [("crc", JObj quiet_fields)] "usart2" (JObj no_irqs_fields)
           empty_world _ _ KeyError Hp Hs Hd Hpre Hfail).
Defined.

(** X12: the scenario document in [layout.json], the directory [out]. *)
Lemma main_with_two_arguments_witness :
  plain_dir "out" = true /\
  (forall dir, files empty_world !! (dir, "out") = None) /\
  dirs (fst (main no_container_str (load_doc scenario_doc) "devheader.py"
               ["out"; "layout.json"] empty_world)) = {["out"]} ∪ dirs empty_world /\
  stdout (fst (main no_container_str (load_doc scenario_doc) "devheader.py"
                 ["out"; "layout.json"] empty_world)) = stdout empty_world /\
  match load_doc scenario_doc "layout.json" with
  | Raise _ =>
      files (fst (main no_container_str (load_doc scenario_doc) "devheader.py"
                    ["out"; "layout.json"] empty_world)) = files empty_world /\
      snd (main no_container_str (load_doc scenario_doc) "devheader.py"
             ["out"; "layout.json"] empty_world) = 1
  | Ok doc =>
      main no_container_str (load_doc scenario_doc) "devheader.py"
           ["out"; "layout.json"] empty_world
      = (fst (generate_c_document no_container_str "out" doc
                (mkWorld ({["out"]} ∪ dirs empty_world) (files empty_world)
                         (stdout empty_world))),
         exit_status (snd (generate_c_document no_container_str "out" doc
                             (mkWorld ({["out"]} ∪ dirs empty_world) (files empty_world)
                                      (stdout empty_world))))) /\
      ((forall m, doc <> JObj m) ->
       files (fst (main no_container_str (load_doc scenario_doc) "devheader.py"
                     ["out"; "layout.json"] empty_world))
       = <[("out", "devinfo.h") := devinfo_text]> (files empty_world))
  end.
Proof.
  assert (Hd : plain_dir "out" = true) by reflexivity.
  assert (Hf : forall dir, files empty_world !! (dir, "out") = None)
    by (intros dir; apply lookup_empty).
  split; [exact Hd|]. split; [exact Hf|].
  apply (main_with_two_arguments no_container_str (load_doc scenario_doc)
           "devheader.py" "out" "layout.json" empty_world Hd Hf).
Defined.

(** X13: the scenario document. *)
Lemma well_formed_document_completes_witness :
  document_ok scenario_doc = true /\
  plain_names scenario_doc = true /\
  snd (generate_c no_container_str "out" scenario_doc empty_world) = Ok tt /\
  (forall argv0 filename w0,
     plain_dir "out" = true ->
     (forall dir, files w0 !! (dir, "out") = None) ->
     load_doc scenario_doc filename = Ok (JObj scenario_doc) ->
     snd (main no_container_str (load_doc scenario_doc) argv0 ["out"; filename] w0) = 0).
Proof.
  assert (H : document_ok scenario_doc = true) by reflexivity.
  assert (Hp : plain_names scenario_doc = true) by reflexivity.
  split; [exact H|]. split; [exact Hp|].
  apply (well_formed_document_completes no_container_str (load_doc scenario_doc)
           "out" scenario_doc empty_world H Hp).
Defined.

(** X14: the scenario document, and the file of the device it skips. *)
Lemma files_after_completed_run_witness :
  plain_names scenario_doc = true /\
  plain_stem "dma1" = true /\
  generate_c no_container_str "out" scenario_doc empty_world
  = (fst (generate_c no_container_str "out" scenario_doc empty_world), Ok tt) /\
  (is_Some (files (fst (generate_c no_container_str "out" scenario_doc empty_world))
              !! ("out", "dma1" +:+ ".h")) <->
   is_Some (files empty_world !! ("out", "dma1" +:+ ".h")) \/
   "dma1" = "devinfo" \/
   (In "dma1" (map fst scenario_doc) /\ is_emitted scenario_doc "dma1" = true)).
Proof.
  assert (Hp : plain_names scenario_doc = true) by reflexivity.
  assert (Hs : plain_stem "dma1" = true) by reflexivity.
  assert (H : generate_c no_container_str "out" scenario_doc empty_world
              = (fst (generate_c no_container_str "out" scenario_doc empty_world), Ok tt))
    by (vm_compute; reflexivity).
  split; [exact Hp|]. split; [exact Hs|]. split; [exact H|].
  apply (files_after_completed_run no_container_str "out" scenario_doc empty_world _
           "dma1" Hp Hs H).
Defined.
